(** * gen_ai: spreadsheet rows through a text-generation API

    A shallow embedding of [app/gemini_handler.py], [app/xls_handler.py]
    and [main.py].  Python values are modelled as follows.

    - [str] is [string], one [ascii] per code point (code points below 256).
    - An exception is its class (the most specific class among those the
      program names in an [except] clause or raises) and the text [str(e)].
    - A pandas row ([Series]) is an association list from column name to
      cell, in column order; a cell is the text [str()] gives for it.
      A row of a table carries its label in [df.index], an integer or a
      string.
    - pandas, the generative-AI SDK, the process environment and the
      interpreter's [repr] are collaborators: they are the fields of the
      class [Runtime], over an abstract [World].
    - [print] is a collaborator that may raise.  It is modelled in the
      loop of [main], where it stands inside the [try] after
      [results.append] and before the [append] of each [except] clause,
      so that an exception it raises changes what is collected.  The
      messages printed outside the loop are left out: every fact about
      [main] is for a console on which those messages are printed.
    - The texts of the exceptions the interpreter itself raises are those
      of CPython 3.11 on a 64-bit build. *)

From Stdlib Require Import String Ascii List Bool Arith NArith ZArith Lia.
From Stdlib Require Import DecimalString DecimalN.
Import ListNotations.

Open Scope list_scope.
Open Scope string_scope.

(* ================================================================= *)
(** ** Python strings *)

Module PyStr.

(** [str.isspace] on one code point below 256. *)
Definition isspace (c : ascii) : bool :=
  let n := N_of_ascii c in
  ((9 <=? n) && (n <=? 13) || (28 <=? n) && (n <=? 32)
   || (n =? 133) || (n =? 160))%N.

(** [c in s] for a one-character [c]. *)
Fixpoint contains_char (c : ascii) (s : string) : bool :=
  match s with
  | EmptyString => false
  | String d s' => Ascii.eqb c d || contains_char c s'
  end.

(** [s.split()]: the maximal runs of non-whitespace, left to right.
    [cur] is the run being read. *)
Fixpoint split_from (cur s : string) : list string :=
  match s with
  | EmptyString => if String.eqb cur "" then [] else [cur]
  | String c s' =>
      if isspace c
      then (if String.eqb cur "" then split_from "" s'
            else cur :: split_from "" s')
      else split_from (cur ++ String c "") s'
  end.

Definition split (s : string) : list string := split_from "" s.

(** [s.lstrip(chars)], [s.rstrip(chars)], [s.strip(chars)], the set of
    characters given as a predicate. *)
Fixpoint lstrip (p : ascii -> bool) (s : string) : string :=
  match s with
  | EmptyString => EmptyString
  | String c s' => if p c then lstrip p s' else s
  end.

Fixpoint rstrip (p : ascii -> bool) (s : string) : string :=
  match s with
  | EmptyString => EmptyString
  | String c s' =>
      let r := rstrip p s' in
      if String.eqb r "" && p c then EmptyString else String c r
  end.

Definition strip_chars (chars : string) (s : string) : string :=
  rstrip (fun c => contains_char c chars) (lstrip (fun c => contains_char c chars) s).

(** [s.strip()] with no argument strips whitespace. *)
Definition strip (s : string) : string := rstrip isspace (lstrip isspace s).

(** [s.lower()], code point by code point: A-Z and the Latin-1 capitals. *)
Definition lower_char (c : ascii) : ascii :=
  let n := N_of_ascii c in
  if ((65 <=? n) && (n <=? 90)
      || (192 <=? n) && (n <=? 222) && negb (n =? 215))%N
  then ascii_of_N (n + 32) else c.

Fixpoint lower (s : string) : string :=
  match s with
  | EmptyString => EmptyString
  | String c s' => String (lower_char c) (lower s')
  end.

(** [s.endswith(suffix)]. *)
Fixpoint endswith (s suffix : string) : bool :=
  String.eqb s suffix
  || match s with
     | EmptyString => false
     | String _ s' => endswith s' suffix
     end.

(** [s.startswith(prefix)] and [sub in s]. *)
Fixpoint startswith (s pre : string) : bool :=
  match pre, s with
  | EmptyString, _ => true
  | String a pre', String b s' => Ascii.eqb a b && startswith s' pre'
  | String _ _, EmptyString => false
  end.

Fixpoint contains (sub s : string) : bool :=
  startswith s sub
  || match s with
     | EmptyString => false
     | String _ s' => contains sub s'
     end.

(** [str(n)] for a non-negative integer, and for any integer. *)
Definition str_of_N (n : N) : string := NilZero.string_of_uint (N.to_uint n).

Definition str_of_Z (z : Z) : string :=
  match z with
  | Z0 => "0"
  | Zpos p => str_of_N (Npos p)
  | Zneg p => "-" ++ str_of_N (Npos p)
  end.

(** [s[:n]]. *)
Fixpoint take (n : nat) (s : string) : string :=
  match n, s with
  | S n', String c s' => String c (take n' s')
  | _, _ => EmptyString
  end.

(** The double quote, as a string. *)
Definition dquote : string := String (ascii_of_N 34) EmptyString.

End PyStr.

(* ================================================================= *)
(** ** Exceptions and results *)

(** The exception classes the program names, with [Exception] standing
    for every other subclass of [Exception].  [OSError] is also
    [IOError], its alias. *)
Inductive exc_class : Type :=
| Exception
| KeyError
| IndexError
| ValueError
| TypeError
| OSError
| FileNotFoundError
| EmptyDataError
| GeminiAPIError
| GoogleAPIError
| RetryError
| UnboundLocalError.

Definition exc_class_eqb (a b : exc_class) : bool :=
  match a, b with
  | Exception, Exception | KeyError, KeyError | IndexError, IndexError
  | ValueError, ValueError | TypeError, TypeError | OSError, OSError
  | FileNotFoundError, FileNotFoundError | EmptyDataError, EmptyDataError
  | GeminiAPIError, GeminiAPIError | GoogleAPIError, GoogleAPIError
  | RetryError, RetryError | UnboundLocalError, UnboundLocalError => true
  | _, _ => false
  end.

(** The direct base class, among the classes above:
    [FileNotFoundError(OSError)], pandas' [EmptyDataError(ValueError)],
    google.api_core's [RetryError(GoogleAPIError)]. *)
Definition base_class (c : exc_class) : option exc_class :=
  match c with
  | Exception => None
  | FileNotFoundError => Some OSError
  | EmptyDataError => Some ValueError
  | RetryError => Some GoogleAPIError
  | _ => Some Exception
  end.

(** [issubclass(c, d)]; the hierarchy above is three levels deep. *)
Definition issubclass (c d : exc_class) : bool :=
  exc_class_eqb c d
  || match base_class c with
     | None => false
     | Some b =>
         exc_class_eqb b d
         || match base_class b with
            | None => false
            | Some b' => exc_class_eqb b' d
            end
     end.

Record exn : Type := Exn { exn_class : exc_class; exn_str : string }.

(** [isinstance(e, c)]. *)
Definition isinstance (e : exn) (c : exc_class) : bool :=
  issubclass (exn_class e) c.

Inductive res (A : Type) : Type :=
| Ok (a : A)
| Raise (e : exn).
Arguments Ok {A} a.
Arguments Raise {A} e.

Definition res_bind {A B} (r : res A) (k : A -> res B) : res B :=
  match r with
  | Ok a => k a
  | Raise e => Raise e
  end.

(** [try: body except ...: handler], every handler re-raising or
    returning. *)
Definition res_catch {A} (r : res A) (h : exn -> res A) : res A :=
  match r with
  | Ok a => Ok a
  | Raise e => h e
  end.

Declare Scope res_scope.
Delimit Scope res_scope with res.
Notation "x <- r ;; k" := (res_bind r (fun x => k))
  (at level 61, r at next level, right associativity) : res_scope.

(* ================================================================= *)
(** ** Tables and API responses *)

Definition cell : Type := string.

(** One row as [df.iterrows()] yields it. *)
Definition Series : Type := list (string * cell).

Definition series_keys (row : Series) : list string := map fst row.

(** [key in row]: membership in the row's labels. *)
Definition series_contains (key : string) (row : Series) : bool :=
  existsb (String.eqb key) (series_keys row).

(** [row[key]] by label, the first column so named. *)
Fixpoint series_get (key : string) (row : Series) : option cell :=
  match row with
  | [] => None
  | (k, v) :: row' => if String.eqb k key then Some v else series_get key row'
  end.

(** Lookup in [row.to_dict()]: a later column of the same name wins. *)
Fixpoint to_dict_get (key : string) (row : Series) : option cell :=
  match row with
  | [] => None
  | (k, v) :: row' =>
      match to_dict_get key row' with
      | Some v' => Some v'
      | None => if String.eqb k key then Some v else None
      end
  end.

(** A row label, an entry of [df.index]: an integer, as in the
    [RangeIndex] a reader gives by default, or a string, as when a
    column of the file serves as the index.  Labels of other kinds
    (floats, dates) are not modelled. *)
Inductive label : Type :=
| LInt (z : Z)
| LStr (s : string).

(** A table: its column names and its rows, each with its label. *)
Record DataFrame : Type := {
  df_columns : list string;
  df_rows : list (label * list cell)
}.

(** [len(df)]. *)
Definition df_len (df : DataFrame) : nat := List.length (df_rows df).

(** [df.iterrows()]: the pairs of a row's label and the row. *)
Definition iterrows (df : DataFrame) : list (label * Series) :=
  map (fun r => (fst r, combine (df_columns df) (snd r))) (df_rows df).

(** Every row has one cell per column. *)
Definition df_wf (df : DataFrame) : Prop :=
  Forall (fun r => List.length (snd r) = List.length (df_columns df)) (df_rows df).

Fixpoint set_cell (cols : list string) (name : string) (v : cell)
  (r : list cell) : list cell :=
  match cols, r with
  | c :: cols', x :: r' =>
      (if String.eqb c name then v else x) :: set_cell cols' name v r'
  | _, _ => r
  end.

(** [df[name] = values]: an existing column is overwritten in place, a
    new one is appended; pandas raises [ValueError] when the number of
    values is not the number of rows. *)
Definition setitem (df : DataFrame) (name : string) (values : list cell)
  : res DataFrame :=
  if negb (List.length values =? df_len df)%nat then
    Raise (Exn ValueError "Length of values does not match length of index")
  else if existsb (String.eqb name) (df_columns df) then
    Ok {| df_columns := df_columns df;
          df_rows := map (fun rv => (fst (fst rv),
                                     set_cell (df_columns df) name (snd rv)
                                              (snd (fst rv))))
                         (combine (df_rows df) values) |}
  else
    Ok {| df_columns := (df_columns df ++ [name])%list;
          df_rows := map (fun rv => (fst (fst rv), (snd (fst rv) ++ [snd rv])%list))
                         (combine (df_rows df) values) |}.

(** The part of a generation response the program reads.  An empty
    (falsy) [content] or [prompt_feedback] message is [None]; a falsy
    [block_reason] is [None], a truthy one is the text [str()] gives. *)
Record Part : Type := { part_text : string }.
Record Content : Type := { content_parts : list Part }.
Record Candidate : Type := { candidate_content : option Content }.
Record PromptFeedback : Type := { block_reason : option string }.

(** [response.text]: missing (the access raises [AttributeError], so
    [hasattr] is false), a string, or a property that raises. *)
Inductive text_attr : Type :=
| TextAbsent
| TextValue (s : string)
| TextRaises (e : exn).

Record Response : Type := {
  resp_parts : res (list Part);
  resp_text : text_attr;
  resp_candidates : list Candidate;
  resp_prompt_feedback : option PromptFeedback
}.

(** What [save_xls] asks pandas to write. *)
Inductive write_request : Type :=
| ToCsv (df : DataFrame) (path : string) (index : bool)
| ToExcel (df : DataFrame) (path : string) (index : bool) (engine : option string).

Definition request_frame (q : write_request) : DataFrame :=
  match q with ToCsv df _ _ | ToExcel df _ _ _ => df end.
Definition request_path (q : write_request) : string :=
  match q with ToCsv _ p _ | ToExcel _ p _ _ => p end.
Definition request_index (q : write_request) : bool :=
  match q with ToCsv _ _ i | ToExcel _ _ i _ => i end.

(* ================================================================= *)
(** ** The collaborators *)

(** Where [print] writes: [sys.stdout], or [sys.stderr] when given as
    [file]. *)
Inductive stream : Type :=
| Stdout
| Stderr.

Class Runtime (World : Type) : Type := {
  (** [repr(s)] of a string, [str(list(row.keys()))], [str(row.to_dict())]
      and [str(response)], used in messages only. *)
  py_repr : string -> string;
  py_str_keys : list string -> string;
  py_str_dict : Series -> string;
  py_str_response : Response -> string;
  (** The rest of a replacement field once its keyword argument is found:
      attribute and index lookups, the conversion, the nested fields of
      the format spec and [__format__]. *)
  py_format_value : Series -> cell -> string -> option ascii -> string -> res string;
  (** [os.getenv(name)]. *)
  os_getenv : string -> World -> option string;
  (** [genai.configure(api_key=key)]. *)
  genai_configure : string -> World -> res unit * World;
  (** [genai.GenerativeModel(model_name).generate_content(prompt)]. *)
  genai_generate_content : string -> string -> World -> res Response * World;
  (** [pd.read_csv(path)] and [pd.read_excel(path, engine=None)]. *)
  pd_read_csv : string -> World -> res DataFrame;
  pd_read_excel : string -> World -> res DataFrame;
  (** [df.to_csv(...)] and [df.to_excel(...)]. *)
  pd_write : write_request -> World -> res unit * World;
  (** [print(text, file=stream)]: what is printed is not recorded, only
      whether the call raises, as it does for text the console cannot
      encode or for a closed stream. *)
  py_print : stream -> string -> World -> res unit
}.

(** The calls made on the collaborators, in order. *)
Inductive event : Type :=
| EvConfigure (api_key : string)
| EvReadCsv (path : string)
| EvReadExcel (path : string)
| EvGenerate (model_name prompt : string)
| EvWrite (q : write_request).

Record state (World : Type) : Type := State {
  st_world : World;
  st_log : list event
}.
Arguments State {World} st_world st_log.
Arguments st_world {World} s.
Arguments st_log {World} s.

Definition log_event {World} (ev : event) (w : World) (s : state World) : state World :=
  State w (st_log s ++ [ev])%list.

(** The log [after] extends the log [before] by calls none of which is
    a write. *)
Definition quiet (before after : list event) : Prop :=
  exists evs, after = (before ++ evs)%list /\ forall q, ~ In (EvWrite q) evs.

(** [KeyError(msg)]: [str()] of a [KeyError] is the [repr] of its argument. *)
Definition mk_KeyError {World} `{Runtime World} (msg : string) : exn :=
  Exn KeyError (py_repr msg).

(* ================================================================= *)
(** ** [str.format] on keyword arguments only *)

Module PyFormat.
Section Format.
Context {World : Type} `{RT : Runtime World}.

(** The part of a field name before the first [.] or [[], and the rest. *)
Fixpoint field_name_split (s : string) : string * string :=
  match s with
  | EmptyString => ("", "")
  | String c s' =>
      if Ascii.eqb c "." || Ascii.eqb c "["
      then ("", s)
      else let (first, rest) := field_name_split s' in (String c first, rest)
  end.

Definition digit_value (c : ascii) : option N :=
  let n := N_of_ascii c in
  if ((48 <=? n) && (n <=? 57))%N then Some (n - 48)%N else None.

Definition PY_SSIZE_T_MAX : N := 9223372036854775807%N.

(** What the interpreter's [get_integer] makes of the first part of a
    field name: not a number (the empty string, or a character that is
    no digit is met), a number, or a number that no longer fits an
    index.  The digits are read left to right and the size is tested
    at each digit, before the next character is looked at. *)
Inductive integer_result : Type :=
| NotInteger
| Integer (n : N)
| TooManyDigits.

Fixpoint get_integer_from (acc : N) (s : string) : integer_result :=
  match s with
  | EmptyString => Integer acc
  | String c s' =>
      match digit_value c with
      | None => NotInteger
      | Some d =>
          if ((PY_SSIZE_T_MAX - d) / 10 <? acc)%N then TooManyDigits
          else get_integer_from (acc * 10 + d)%N s'
      end
  end.

Definition get_integer (s : string) : integer_result :=
  match s with
  | EmptyString => NotInteger
  | _ => get_integer_from 0%N s
  end.

Definition positional_error (index : N) : exn :=
  Exn IndexError ("Replacement index " ++ PyStr.str_of_N index
                  ++ " out of range for positional args tuple").

(** One replacement field, with no positional argument to draw on. *)
Definition output_markup (kwargs : Series) (name : string)
  (conv : option ascii) (spec : string) : res string :=
  let (first, rest) := field_name_split name in
  if String.eqb first "" then Raise (positional_error 0%N)
  else
    match get_integer first with
    | TooManyDigits =>
        Raise (Exn ValueError "Too many decimal digits in format string")
    | Integer n => Raise (positional_error n)
    | NotInteger =>
        match to_dict_get first kwargs with
        | None => Raise (mk_KeyError first)
        | Some v =>
            match rest, conv, spec with
            | EmptyString, None, EmptyString => Ok v
            | _, _, _ => py_format_value kwargs v rest conv spec
            end
        end
    end.

(** Where the scanner is in the format string. *)
Inductive scan_state : Type :=
| InLiteral
| AfterOpen
| AfterClose
| InFieldName (name : string) (bracket : bool)
| AfterBang (name : string)
| AfterConversion (name : string) (conv : ascii)
| InFormatSpec (name : string) (conv : option ascii) (spec : string) (depth : nat).

Inductive step_result : Type :=
| Continue (st : scan_state) (out : string)
| Stop (e : exn).

Definition end_field (kwargs : Series) (out name : string)
  (conv : option ascii) (spec : string) : step_result :=
  match output_markup kwargs name conv spec with
  | Ok text => Continue InLiteral (out ++ text)
  | Raise e => Stop e
  end.

(** One character of a field name, outside brackets. *)
Definition name_step (kwargs : Series) (out name : string) (c : ascii) : step_result :=
  if Ascii.eqb c "{" then Stop (Exn ValueError "unexpected '{' in field name")
  else if Ascii.eqb c "[" then Continue (InFieldName (name ++ String c "") true) out
  else if Ascii.eqb c "}" then end_field kwargs out name None ""
  else if Ascii.eqb c ":" then Continue (InFormatSpec name None "" 1) out
  else if Ascii.eqb c "!" then Continue (AfterBang name) out
  else Continue (InFieldName (name ++ String c "") false) out.

Definition step (kwargs : Series) (st : scan_state) (out : string) (c : ascii)
  : step_result :=
  match st with
  | InLiteral =>
      if Ascii.eqb c "{" then Continue AfterOpen out
      else if Ascii.eqb c "}" then Continue AfterClose out
      else Continue InLiteral (out ++ String c "")
  | AfterOpen =>
      if Ascii.eqb c "{" then Continue InLiteral (out ++ "{")
      else name_step kwargs out "" c
  | AfterClose =>
      if Ascii.eqb c "}" then Continue InLiteral (out ++ "}")
      else Stop (Exn ValueError "Single '}' encountered in format string")
  | InFieldName name false => name_step kwargs out name c
  | InFieldName name true =>
      Continue (InFieldName (name ++ String c "") (negb (Ascii.eqb c "]"))) out
  | AfterBang name => Continue (AfterConversion name c) out
  | AfterConversion name conv =>
      if Ascii.eqb c "}" then end_field kwargs out name (Some conv) ""
      else if Ascii.eqb c ":" then Continue (InFormatSpec name (Some conv) "" 1) out
      else Stop (Exn ValueError "expected ':' after conversion specifier")
  | InFormatSpec name conv spec depth =>
      if Ascii.eqb c "{"
      then Continue (InFormatSpec name conv (spec ++ String c "") (S depth)) out
      else if Ascii.eqb c "}"
      then match depth with
           | S (S d) => Continue (InFormatSpec name conv (spec ++ String c "") (S d)) out
           | _ => end_field kwargs out name conv spec
           end
      else Continue (InFormatSpec name conv (spec ++ String c "") depth) out
  end.

(** The end of the format string. *)
Definition finish (st : scan_state) (out : string) : res string :=
  match st with
  | InLiteral => Ok out
  | AfterOpen => Raise (Exn ValueError "Single '{' encountered in format string")
  | AfterClose => Raise (Exn ValueError "Single '}' encountered in format string")
  | InFieldName _ _ => Raise (Exn ValueError "expected '}' before end of string")
  | AfterBang _ =>
      Raise (Exn ValueError "end of string while looking for conversion specifier")
  | AfterConversion _ _ | InFormatSpec _ _ _ _ =>
      Raise (Exn ValueError "unmatched '{' in format spec")
  end.

Fixpoint format_from (kwargs : Series) (st : scan_state) (out s : string)
  : res string :=
  match s with
  | EmptyString => finish st out
  | String c s' =>
      match step kwargs st out c with
      | Continue st' out' => format_from kwargs st' out' s'
      | Stop e => Raise e
      end
  end.

(** [template.format] applied to the keyword arguments [kwargs]. *)
Definition format (template : string) (kwargs : Series) : res string :=
  format_from kwargs InLiteral "" template.

End Format.
End PyFormat.

(* ================================================================= *)
(** ** app/gemini_handler.py *)

Module GeminiHandler.
Section Handler.
Context {World : Type} `{RT : Runtime World}.

(** [configure_gemini()]. *)
Definition configure_gemini (s : state World) : res unit * state World :=
  match os_getenv "GEMINI_API_KEY" (st_world s) with
  | Some api_key =>
      if String.eqb api_key "" then
        (Raise (Exn ValueError
           ("GEMINI_API_KEY environment variable not set. "
            ++ "Please set it to your Google Generative AI API key.")), s)
      else
        let (r, w) := genai_configure api_key (st_world s) in
        let s' := log_event (EvConfigure api_key) w s in
        match r with
        | Ok _ => (Ok tt, s')
        | Raise e =>
            (Raise (Exn GeminiAPIError
               ("Failed to configure Gemini API: " ++ exn_str e)), s')
        end
  | None =>
      (Raise (Exn ValueError
         ("GEMINI_API_KEY environment variable not set. "
          ++ "Please set it to your Google Generative AI API key.")), s)
  end.

(** [[col.strip('{}') for col in prompt_template.split()
      if '{' in col and '}' in col]]. *)
Definition required_keys (prompt_template : string) : list string :=
  map (PyStr.strip_chars "{}")
      (filter (fun col => PyStr.contains_char "{" col && PyStr.contains_char "}" col)
              (PyStr.split prompt_template)).

(** [for key in required_keys: if key not in row: raise KeyError(...)]. *)
Fixpoint check_required_keys (keys : list string) (row : Series) : res unit :=
  match keys with
  | [] => Ok tt
  | key :: keys' =>
      if negb (series_contains key row) then
        Raise (mk_KeyError
          ("Placeholder '{" ++ key ++ "}' in prompt_template not found in "
           ++ "the provided row's columns: " ++ py_str_keys (series_keys row)))
      else check_required_keys keys' row
  end.

(** The first [try] of [generate_text_from_row]: the formatted prompt. *)
Definition render_prompt (row : Series) (prompt_template : string) : res string :=
  res_catch
    (res_bind (check_required_keys (required_keys prompt_template) row)
       (fun _ => PyFormat.format prompt_template row))
    (fun e =>
       if isinstance e KeyError then
         Raise (mk_KeyError
           ("Error formatting prompt: " ++ exn_str e ++ ". Ensure all "
            ++ "placeholders in the template exist as columns in the "
            ++ "DataFrame row."))
       else
         Raise (Exn ValueError
           ("Error formatting prompt: " ++ exn_str e ++ ". Template: '"
            ++ prompt_template ++ "', Row: " ++ py_str_dict row))).

(** [" (Reason: ...)"] when the response has prompt feedback with a
    block reason, [""] otherwise. *)
Definition block_reason_text (response : Response) : string :=
  match resp_prompt_feedback response with
  | Some feedback =>
      match block_reason feedback with
      | Some reason => " (Reason: " ++ reason ++ ")"
      | None => ""
      end
  | None => ""
  end.

(** [response.candidates[0].content.parts[0].text] when the first
    candidate has content with parts. *)
Definition first_candidate_text (response : Response) : option string :=
  match resp_candidates response with
  | candidate :: _ =>
      match candidate_content candidate with
      | Some content =>
          match content_parts content with
          | part :: _ => Some (part_text part)
          | [] => None
          end
      | None => None
      end
  | [] => None
  end.

(** The body of the second [try], after the call has returned. *)
Definition extract_text (formatted_prompt : string) (response : Response)
  : res string :=
  res_bind (resp_parts response) (fun parts =>
  match parts with
  | [] =>
      let block_reason := block_reason_text response in
      let candidate_text := first_candidate_text response in
      match candidate_text with
      | Some (String c t) => Ok (String c t)
      | _ =>
          Raise (Exn GeminiAPIError
            ("Gemini API returned an empty response or content was blocked"
             ++ block_reason ++ ". No text generated for prompt: '"
             ++ formatted_prompt ++ "'"))
      end
  | _ :: _ =>
      res_bind
        (match resp_text response with
         | TextRaises e => Raise e
         | TextValue (String c t) => Ok (String c t)
         | _ =>
             match first_candidate_text response with
             | Some t => Ok t
             | None => Ok ""
             end
         end)
        (fun generated_text =>
           if String.eqb (PyStr.strip generated_text) "" then
             Raise (Exn GeminiAPIError
               ("Gemini API returned empty or whitespace text"
                ++ block_reason_text response ++ " for prompt: '"
                ++ formatted_prompt ++ "'"))
           else Ok generated_text)
  end).

(** The [except] clauses of the second [try].  [response] is bound only
    once the call has returned; the [KeyError] clause reads it. *)
Definition generation_error (formatted_prompt : string)
  (response : option Response) (e : exn) : exn :=
  if isinstance e GoogleAPIError || isinstance e RetryError then
    Exn GeminiAPIError
      ("Gemini API call failed: " ++ exn_str e ++ ". Prompt: '"
       ++ formatted_prompt ++ "'")
  else if isinstance e KeyError then
    match response with
    | Some r =>
        Exn GeminiAPIError
          ("Error accessing generated text from Gemini API response: "
           ++ exn_str e ++ ". Response structure might be unexpected. "
           ++ "Response: " ++ py_str_response r)
    | None =>
        Exn UnboundLocalError
          ("cannot access local variable 'response' where it is not "
           ++ "associated with a value")
    end
  else
    Exn GeminiAPIError
      ("An unexpected error occurred during text generation with Gemini "
       ++ "API: " ++ exn_str e ++ ". Prompt: '" ++ formatted_prompt ++ "'").

(** The second [try] of [generate_text_from_row]. *)
Definition generate (formatted_prompt model_name : string) (s : state World)
  : res string * state World :=
  let (r, w) := genai_generate_content model_name formatted_prompt (st_world s) in
  let s' := log_event (EvGenerate model_name formatted_prompt) w s in
  match r with
  | Raise e => (Raise (generation_error formatted_prompt None e), s')
  | Ok response =>
      match extract_text formatted_prompt response with
      | Ok text => (Ok text, s')
      | Raise e => (Raise (generation_error formatted_prompt (Some response) e), s')
      end
  end.

(** [generate_text_from_row(row, prompt_template, model_name)]. *)
Definition generate_text_from_row (row : Series)
  (prompt_template model_name : string) (s : state World)
  : res string * state World :=
  match render_prompt row prompt_template with
  | Raise e => (Raise e, s)
  | Ok formatted_prompt => generate formatted_prompt model_name s
  end.

End Handler.
End GeminiHandler.

(* ================================================================= *)
(** ** app/xls_handler.py *)

Module XlsHandler.
Section Handler.
Context {World : Type} `{RT : Runtime World}.

(** [load_xls(file_path)]. *)
Definition load_xls (file_path : string) (s : state World)
  : res DataFrame * state World :=
  let csv := PyStr.endswith (PyStr.lower file_path) ".csv" in
  let r := if csv then pd_read_csv file_path (st_world s)
           else pd_read_excel file_path (st_world s) in
  let s' := log_event (if csv then EvReadCsv file_path else EvReadExcel file_path)
                      (st_world s) s in
  match r with
  | Ok df => (Ok df, s')
  | Raise e =>
      if isinstance e FileNotFoundError then
        (Raise (Exn FileNotFoundError
           ("Error: File not found at path: " ++ file_path)), s')
      else if isinstance e EmptyDataError then
        (Raise (Exn ValueError ("Error: File is empty: " ++ file_path)), s')
      else if PyStr.contains "Excel file format cannot be determined" (exn_str e)
              || PyStr.contains "is not a valid Csv file" (exn_str e)
              || isinstance e ValueError then
        (Raise (Exn ValueError
           ("Error: File is not a valid Excel/CSV file or is corrupted: "
            ++ file_path ++ ". Details: " ++ exn_str e)), s')
      else (Raise e, s')
  end.

(** The first argument of [save_xls] is any Python object. *)
Inductive py_object : Type :=
| ObjDataFrame (df : DataFrame)
| ObjStr (s : string)
| ObjNone.

Definition write (q : write_request) (s : state World) : res unit * state World :=
  let (r, w) := pd_write q (st_world s) in
  (r, log_event (EvWrite q) w s).

(** [save_xls(df, file_path)]. *)
Definition save_xls (df : py_object) (file_path : string) (s : state World)
  : res unit * state World :=
  match df with
  | ObjDataFrame d =>
      let body :=
        if PyStr.endswith (PyStr.lower file_path) ".csv" then
          write (ToCsv d file_path false) s
        else if PyStr.endswith (PyStr.lower file_path) ".xlsx" then
          write (ToExcel d file_path false (Some "openpyxl")) s
        else if PyStr.endswith (PyStr.lower file_path) ".xls" then
          write (ToExcel d file_path false None) s
        else
          (Raise (Exn ValueError
             ("Unsupported file extension: " ++ file_path
              ++ ". Please use .csv, .xls, or .xlsx.")), s) in
      match body with
      | (Ok _, s') => (Ok tt, s')
      | (Raise e, s') =>
          if isinstance e OSError then
            (Raise (Exn OSError
               ("Error: Could not write file to path: " ++ file_path
                ++ ". Details: " ++ exn_str e)), s')
          else
            (Raise (Exn OSError
               ("Error: Failed to save file '" ++ file_path
                ++ "' due to an unexpected error. Details: " ++ exn_str e)), s')
      end
  | _ => (Raise (Exn TypeError "Input 'df' must be a pandas DataFrame."), s)
  end.

End Handler.
End XlsHandler.

(* ================================================================= *)
(** ** main.py *)

Module Main.
Import GeminiHandler XlsHandler.

Record Args : Type := {
  input_file : string;
  output_file : string;
  prompt_template : string;
  new_column_name : string
}.

(** The places where [main] calls [sys.exit(1)]. *)
Inductive exit_site : Type :=
| ConfigurationError
| FileLoadingError
| RowCountMismatch
| FileSavingError.

Inductive main_result : Type :=
| Completed
| SysExit (site : exit_site)
| Uncaught (e : exn).

(** The exit status of the process. *)
Definition exit_code (r : main_result) : Z :=
  match r with
  | Completed => 0
  | SysExit _ => 1
  | Uncaught _ => 1
  end.

Section Driver.
Context {World : Type} `{RT : Runtime World}.

(** [index + 1] as an f-string shows it; adding 1 to a string raises
    [TypeError]. *)
Definition row_number (index : label) : res string :=
  match index with
  | LInt z => Ok (PyStr.str_of_Z (z + 1))
  | LStr _ =>
      Raise (Exn TypeError
               ("can only concatenate str (not " ++ PyStr.dquote ++ "int"
                ++ PyStr.dquote ++ ") to str"))
  end.

(** The [except] clauses of the loop.  Each builds its message, prints
    it to [sys.stderr] and then appends its placeholder; an exception
    raised on the way leaves the loop. *)
Definition record_failure (index : label) (e : exn) (results : list string)
  (w : World) : res (list string) :=
  if isinstance e GeminiAPIError then
    res_bind (row_number index) (fun n =>
    res_bind (py_print Stderr
                ("Error on row " ++ n ++ ": Gemini API Error - " ++ exn_str e
                 ++ ". Using placeholder 'ERROR_API'.") w) (fun _ =>
    Ok (results ++ ["ERROR_API"])%list))
  else if isinstance e KeyError then
    res_bind (row_number index) (fun n =>
    res_bind (py_print Stderr
                ("Error on row " ++ n ++ ": Key Error - " ++ exn_str e
                 ++ ". Check prompt template and column names. "
                 ++ "Using placeholder 'ERROR_KEY'.") w) (fun _ =>
    Ok (results ++ ["ERROR_KEY"])%list))
  else
    res_bind (row_number index) (fun n =>
    res_bind (py_print Stderr
                ("Error on row " ++ n ++ ": Unexpected error - " ++ exn_str e
                 ++ ". Using placeholder 'ERROR_UNEXPECTED'.") w) (fun _ =>
    Ok (results ++ ["ERROR_UNEXPECTED"])%list)).

(** The message printed for a processed row. *)
Definition progress_message (n : string) (total_rows : nat)
  (generated_text : string) : string :=
  "Processed row " ++ n ++ " of " ++ PyStr.str_of_N (N.of_nat total_rows)
  ++ ". Result: '" ++ PyStr.take 50 generated_text ++ "...'".

(** The body of the loop over [df.iterrows()].  In the [try] the text
    is generated and appended, then the message built and printed;
    what any of the three raises goes to the [except] clauses.  The
    result is the list of results after the pass, or the exception
    that leaves the loop. *)
Definition process_row (total_rows : nat) (template : string) (index : label)
  (row : Series) (results : list string) (s : state World)
  : res (list string) * state World :=
  match generate_text_from_row row template "gemini-pro" s with
  | (Ok generated_text, s') =>
      let results' := (results ++ [generated_text])%list in
      match res_bind (row_number index) (fun n =>
              py_print Stdout (progress_message n total_rows generated_text)
                       (st_world s')) with
      | Ok _ => (Ok results', s')
      | Raise e => (record_failure index e results' (st_world s'), s')
      end
  | (Raise e, s') => (record_failure index e results (st_world s'), s')
  end.

Fixpoint process_rows (total_rows : nat) (template : string)
  (rows : list (label * Series)) (results : list string) (s : state World)
  : res (list string) * state World :=
  match rows with
  | [] => (Ok results, s)
  | (index, row) :: rows' =>
      match process_row total_rows template index row results s with
      | (Ok results', s') => process_rows total_rows template rows' results' s'
      | (Raise e, s') => (Raise e, s')
      end
  end.

(** [main()], the arguments parsed. *)
Definition main (args : Args) (s : state World) : main_result * state World :=
  match configure_gemini s with
  | (Raise e, s1) =>
      if isinstance e ValueError then (SysExit ConfigurationError, s1)
      else if isinstance e GeminiAPIError then (SysExit ConfigurationError, s1)
      else (Uncaught e, s1)
  | (Ok _, s1) =>
      match load_xls (input_file args) s1 with
      | (Raise e, s2) =>
          if isinstance e FileNotFoundError then (SysExit FileLoadingError, s2)
          else if isinstance e ValueError then (SysExit FileLoadingError, s2)
          else (SysExit FileLoadingError, s2)
      | (Ok df, s2) =>
          match process_rows (df_len df) (prompt_template args) (iterrows df) [] s2 with
          | (Raise e, s3) => (Uncaught e, s3)
          | (Ok results, s3) =>
              if (List.length results =? df_len df)%nat then
                match setitem df (new_column_name args) results with
                | Raise e => (Uncaught e, s3)
                | Ok df' =>
                    match save_xls (ObjDataFrame df') (output_file args) s3 with
                    | (Ok _, s4) => (Completed, s4)
                    | (Raise e, s4) =>
                        if isinstance e OSError then (SysExit FileSavingError, s4)
                        else (SysExit FileSavingError, s4)
                    end
                end
              else (SysExit RowCountMismatch, s3)
          end
      end
  end.

End Driver.
End Main.

(* ================================================================= *)
(** ** A mocked runtime

    An in-memory stand-in for the collaborators, as a test double would
    provide them: files are tables kept by path, and the generation
    client answers with the queued replies, then echoes the prompt. *)

Module Mock.

Record world : Type := {
  env_key : option string;
  disk : list (string * DataFrame);
  replies : list (res Response)
}.

Definition quote (s : string) : string := "'" ++ s ++ "'".

Fixpoint find_file (path : string) (files : list (string * DataFrame))
  : option DataFrame :=
  match files with
  | [] => None
  | (p, df) :: files' => if String.eqb p path then Some df else find_file path files'
  end.

Definition text_response (text : string) : Response :=
  {| resp_parts := Ok [ {| part_text := text |} ];
     resp_text := TextValue text;
     resp_candidates :=
       [ {| candidate_content := Some {| content_parts := [ {| part_text := text |} ] |} |} ];
     resp_prompt_feedback := None |}.

Definition blocked_response (reason : string) : Response :=
  {| resp_parts := Ok [];
     resp_text := TextAbsent;
     resp_candidates := [];
     resp_prompt_feedback := Some {| block_reason := Some reason |} |}.

Definition read (empty_is_error : bool) (path : string) (w : world) : res DataFrame :=
  match find_file path (disk w) with
  | None =>
      Raise (Exn FileNotFoundError
               ("[Errno 2] No such file or directory: " ++ quote path))
  | Some df =>
      match df_columns df with
      | [] => if empty_is_error
              then Raise (Exn EmptyDataError "No columns to parse from file")
              else Ok df
      | _ :: _ => Ok df
      end
  end.

#[global] Instance runtime : Runtime world := {|
  py_repr := quote;
  py_str_keys := fun keys => "[" ++ String.concat ", " (map quote keys) ++ "]";
  py_str_dict := fun row =>
    "{" ++ String.concat ", " (map (fun kv => quote (fst kv) ++ ": " ++ quote (snd kv)) row)
    ++ "}";
  py_str_response := fun _ => "<GenerateContentResponse>";
  py_format_value := fun _ v rest conv spec =>
    match rest, conv, spec with
    | EmptyString, Some "s"%char, EmptyString => Ok v
    | EmptyString, Some "r"%char, EmptyString => Ok (quote v)
    | _, _, _ => Raise (Exn ValueError "replacement field not supported by the mock")
    end;
  os_getenv := fun name w =>
    if String.eqb name "GEMINI_API_KEY" then env_key w else None;
  genai_configure := fun _ w => (Ok tt, w);
  genai_generate_content := fun _ prompt w =>
    match replies w with
    | [] => (Ok (text_response prompt), w)
    | r :: rest =>
        (r, {| env_key := env_key w; disk := disk w; replies := rest |})
    end;
  pd_read_csv := read true;
  pd_read_excel := read false;
  pd_write := fun q w =>
    (Ok tt, {| env_key := env_key w;
               disk := (request_path q, request_frame q) :: disk w;
               replies := replies w |});
  py_print := fun _ _ _ => Ok tt
|}.

Definition start (w : world) : state world := State w [].

(** The table and record of the end-to-end scenarios. *)
Definition widget_row : Series := [("name", "Widget"); ("desc", "Blue widget")].

Definition widget_table : DataFrame :=
  {| df_columns := ["name"; "desc"];
     df_rows := [(LInt 0, ["Widget"; "Blue widget"])] |}.

Definition header_only_table : DataFrame :=
  {| df_columns := ["name"; "desc"]; df_rows := [] |}.

Definition no_key_world : world :=
  {| env_key := None; disk := [("in.csv", widget_table)]; replies := [] |}.

(** The client answers once with padded text, or with a blocked prompt. *)
Definition padded_world : world :=
  {| env_key := Some "secret";
     disk := [("in.csv", widget_table)];
     replies := [Ok (text_response "  Buy now!  ")] |}.

Definition blocked_world : world :=
  {| env_key := Some "secret";
     disk := [("in.csv", widget_table)];
     replies := [Ok (blocked_response "SAFETY")] |}.

Definition widget_world : world :=
  {| env_key := Some "secret";
     disk := [("in.csv", widget_table); ("empty.csv", header_only_table)];
     replies := [] |}.

End Mock.

(* ================================================================= *)
(** ** Templates made of literal text and placeholders *)

(** A template whose placeholders have the form [{column_name}]. *)
Inductive segment : Type :=
| Lit (text : string)
| Placeholder (name : string).

Fixpoint template_of (segments : list segment) : string :=
  match segments with
  | [] => ""
  | Lit text :: rest => text ++ template_of rest
  | Placeholder name :: rest => "{" ++ name ++ "}" ++ template_of rest
  end.

(** Characters with a meaning of their own inside a replacement field. *)
Definition field_syntax (c : ascii) : bool :=
  PyStr.contains_char c "{}[.!:".

Fixpoint all_chars (p : ascii -> bool) (s : string) : bool :=
  match s with
  | EmptyString => true
  | String c s' => p c && all_chars p s'
  end.

(** A column name a placeholder can spell: not empty, no field syntax,
    and read by the interpreter as a name, not as a number or as
    digits too many for one. *)
Definition plain_name (name : string) : bool :=
  negb (String.eqb name "")
  && all_chars (fun c => negb (field_syntax c)) name
  && match PyFormat.get_integer name with
     | PyFormat.NotInteger => true
     | _ => false
     end.

(** Text without braces, and text without whitespace. *)
Definition plain_text (text : string) : bool :=
  all_chars (fun c => negb (PyStr.contains_char c "{}")) text.





(* ================================================================= *)
(** ** Templates whose placeholders are words of their own *)







(* ================================================================= *)
(** ** A mocked runtime with failing collaborators

    The mocked runtime, except that a collaborator given an exception
    raises it on every call and changes nothing. *)

Definition faulty_runtime
  (configure_error generate_error read_error write_error : option exn)
  : Runtime Mock.world :=
  {| py_repr := py_repr (Runtime := Mock.runtime);
     py_str_keys := py_str_keys (Runtime := Mock.runtime);
     py_str_dict := py_str_dict (Runtime := Mock.runtime);
     py_str_response := py_str_response (Runtime := Mock.runtime);
     py_format_value := py_format_value (Runtime := Mock.runtime);
     os_getenv := os_getenv (Runtime := Mock.runtime);
     genai_configure := fun key w =>
       match configure_error with
       | Some e => (Raise e, w)
       | None => genai_configure (Runtime := Mock.runtime) key w
       end;
     genai_generate_content := fun model_name prompt w =>
       match generate_error with
       | Some e => (Raise e, w)
       | None => genai_generate_content (Runtime := Mock.runtime) model_name prompt w
       end;
     pd_read_csv := fun path w =>
       match read_error with
       | Some e => Raise e
       | None => pd_read_csv (Runtime := Mock.runtime) path w
       end;
     pd_read_excel := fun path w =>
       match read_error with
       | Some e => Raise e
       | None => pd_read_excel (Runtime := Mock.runtime) path w
       end;
     pd_write := fun q w =>
       match write_error with
       | Some e => (Raise e, w)
       | None => pd_write (Runtime := Mock.runtime) q w
       end;
     py_print := py_print (Runtime := Mock.runtime) |}.

(** A table of two records, and an environment whose key is empty. *)
Definition two_row_table : DataFrame :=
  {| df_columns := ["name"; "desc"];
     df_rows := [(LInt 0, ["Widget"; "Blue widget"]);
                 (LInt 1, ["Gadget"; "Red gadget"])] |}.

Definition two_row_world : Mock.world :=
  {| Mock.env_key := Some "secret";
     Mock.disk := [("in.csv", two_row_table)];
     Mock.replies := [] |}.

Definition empty_key_world : Mock.world :=
  {| Mock.env_key := Some "";
     Mock.disk := [("in.csv", Mock.widget_table)];
     Mock.replies := [] |}.

Definition demo_args : Main.Args :=
  {| Main.input_file := "in.csv"; Main.output_file := "out.csv";
     Main.prompt_template := "Ad for {name} : {desc}";
     Main.new_column_name := "ad" |}.

(* ================================================================= *)
(** ** Consoles and row labels *)

(** A console on which [print] never raises. *)
Definition console_ok {World : Type} (RT : Runtime World) : Prop :=
  forall (out : stream) (text : string) (w : World), py_print out text w = Ok tt.

(** Rows labelled by integers, for which [index + 1] is a number. *)
Definition integer_label (index : label) : bool :=
  match index with
  | LInt _ => true
  | LStr _ => false
  end.

Definition integer_labels {A : Type} (rows : list (label * A)) : bool :=
  forallb (fun r => integer_label (fst r)) rows.

(** The table [main] loads, when it gets that far, has its rows
    labelled by integers. *)
Definition loads_integer_labels {World : Type} (RT : Runtime World)
  (args : Main.Args) (s : state World) : Prop :=
  forall (s1 s2 : state World) (table : DataFrame),
    GeminiHandler.configure_gemini s = (Ok tt, s1) ->
    XlsHandler.load_xls (Main.input_file args) s1 = (Ok table, s2) ->
    integer_labels (df_rows table) = true.

(** What the loop of [main] collects for the outcome of
    [generate_text_from_row] when the row's message is printed. *)
Definition recorded (outcome : res string) : string :=
  match outcome with
  | Ok generated_text => generated_text
  | Raise e =>
      if isinstance e GeminiAPIError then "ERROR_API"
      else if isinstance e KeyError then "ERROR_KEY"
      else "ERROR_UNEXPECTED"
  end.

(** The mocked runtime with a standard output that encodes ASCII only:
    printing a code point above 127 to it raises [UnicodeEncodeError],
    a [ValueError]. *)
Definition ascii_console_runtime : Runtime Mock.world :=
  {| py_repr := py_repr (Runtime := Mock.runtime);
     py_str_keys := py_str_keys (Runtime := Mock.runtime);
     py_str_dict := py_str_dict (Runtime := Mock.runtime);
     py_str_response := py_str_response (Runtime := Mock.runtime);
     py_format_value := py_format_value (Runtime := Mock.runtime);
     os_getenv := os_getenv (Runtime := Mock.runtime);
     genai_configure := genai_configure (Runtime := Mock.runtime);
     genai_generate_content := genai_generate_content (Runtime := Mock.runtime);
     pd_read_csv := pd_read_csv (Runtime := Mock.runtime);
     pd_read_excel := pd_read_excel (Runtime := Mock.runtime);
     pd_write := pd_write (Runtime := Mock.runtime);
     py_print := fun out text _ =>
       match out with
       | Stdout =>
           if all_chars (fun c => (N_of_ascii c <? 128)%N) text then Ok tt
           else Raise (Exn ValueError
                         "'ascii' codec can't encode character: ordinal not in range(128)")
       | Stderr => Ok tt
       end |}.

(** The client answers once with a text that holds an accented letter
    (code point 233). *)
Definition accented_text : string := "Caf" ++ String (ascii_of_N 233) EmptyString.

Definition accented_world : Mock.world :=
  {| Mock.env_key := Some "secret";
     Mock.disk := [("in.csv", Mock.widget_table)];
     Mock.replies := [Ok (Mock.text_response accented_text)] |}.

(** A table whose rows are labelled by a column of codes. *)
Definition coded_table : DataFrame :=
  {| df_columns := ["name"; "desc"];
     df_rows := [(LStr "W-1", ["Widget"; "Blue widget"]);
                 (LStr "G-2", ["Gadget"; "Red gadget"])] |}.

Definition coded_world : Mock.world :=
  {| Mock.env_key := Some "secret";
     Mock.disk := [("in.csv", coded_table)];
     Mock.replies := [] |}.

(* ================================================================= *)
(** ** Facts about strings *)

Section StringFacts.

Lemma append_nil_r (s : string) : s ++ "" = s.
Proof. induction s as [|c s IH]; simpl; [reflexivity | now rewrite IH]. Qed.

Lemma append_assoc (a b c : string) : (a ++ b) ++ c = a ++ (b ++ c).
Proof. induction a as [|x a IH]; simpl; [reflexivity | now rewrite IH]. Qed.

Lemma length_append (a b : string) :
  String.length (a ++ b) = String.length a + String.length b.
Proof. induction a as [|x a IH]; simpl; [reflexivity | now rewrite IH]. Qed.

Lemma lower_append (a b : string) :
  PyStr.lower (a ++ b) = PyStr.lower a ++ PyStr.lower b.
Proof. induction a as [|x a IH]; simpl; [reflexivity | now rewrite IH]. Qed.

Lemma endswith_unfold (s suffix : string) :
  PyStr.endswith s suffix
  = String.eqb s suffix
    || match s with
       | EmptyString => false
       | String _ s' => PyStr.endswith s' suffix
       end.
Proof. destruct s; reflexivity. Qed.

Lemma endswith_iff (s suffix : string) :
  PyStr.endswith s suffix = true <-> exists p, s = p ++ suffix.
Proof.
  induction s as [|c s IH]; rewrite endswith_unfold.
  - rewrite orb_false_r, String.eqb_eq. split.
    + intros <-. now exists "".
    + intros [p Hp]. destruct p; simpl in Hp; [assumption | discriminate].
  - rewrite orb_true_iff, String.eqb_eq, IH. split.
    + intros [<- | [p ->]]; [now exists "" | now exists (String c p)].
    + intros [[|x p] Hp]; simpl in Hp.
      * now left.
      * right. injection Hp as _ ->. now exists p.
Qed.

Lemma endswith_append (a b : string) : PyStr.endswith (a ++ b) b = true.
Proof. apply endswith_iff. now exists a. Qed.

(** Two ways of cutting one string at the same distance from its end
    give the same suffix. *)
Lemma append_same_suffix (a b p c : string) :
  a ++ b = p ++ c -> String.length b = String.length c -> b = c.
Proof.
  revert p. induction a as [|x a IH]; intros p Heq Hlen.
  - destruct p as [|y p]; simpl in Heq; [assumption |].
    apply (f_equal String.length) in Heq. simpl in Heq.
    rewrite length_append in Heq. lia.
  - destruct p as [|y p]; simpl in Heq.
    + apply (f_equal String.length) in Heq. simpl in Heq.
      rewrite length_append in Heq. lia.
    + injection Heq as _ Heq. eauto.
Qed.

(** A string does not end with [c ++ c'] when it ends with another
    tail as long as [c']. *)
Lemma endswith_other_tail (a b c c' : string) :
  String.length b = String.length c' -> b <> c' ->
  PyStr.endswith (a ++ b) (c ++ c') = false.
Proof.
  intros Hlen Hne. destruct (PyStr.endswith (a ++ b) (c ++ c')) eqn:E; [|reflexivity].
  apply endswith_iff in E as [p Hp]. rewrite <- append_assoc in Hp.
  now apply append_same_suffix in Hp.
Qed.

Lemma contains_append (a sub b : string) :
  PyStr.contains sub (a ++ sub ++ b) = true.
Proof.
  assert (Hpre : forall t u, PyStr.startswith (t ++ u) t = true).
  { induction t as [|x t IH]; intros u; simpl; [now destruct u |].
    now rewrite Ascii.eqb_refl, IH. }
  assert (Hunfold : forall s, PyStr.contains sub s
            = PyStr.startswith s sub
              || match s with
                 | EmptyString => false
                 | String _ s' => PyStr.contains sub s'
                 end) by (now destruct s).
  induction a as [|x a IH]; rewrite Hunfold.
  - simpl. now rewrite Hpre.
  - change (String x a ++ sub ++ b) with (String x (a ++ sub ++ b)).
    cbv iota. rewrite IH. apply orb_true_r.
Qed.

Lemma contains_inside (a m b sub : string) :
  PyStr.contains sub m = true -> PyStr.contains sub (a ++ m ++ b) = true.
Proof.
  assert (Hpre : forall t u, PyStr.startswith u t = true -> exists v, u = t ++ v).
  { induction t as [|x t IH]; intros u Hu; [now exists u |].
    destruct u as [|y u]; simpl in Hu; [discriminate |].
    apply andb_true_iff in Hu as [Hxy Hu]. apply Ascii.eqb_eq in Hxy as ->.
    destruct (IH u Hu) as [v ->]. now exists v. }
  assert (Hsplit : forall m, PyStr.contains sub m = true ->
                             exists u v, m = u ++ sub ++ v).
  { clear m. induction m as [|x m IH].
    - intros H. destruct sub as [|y sub]; [now exists "", "" | discriminate H].
    - intros H. rewrite (ltac:(reflexivity) :
          PyStr.contains sub (String x m)
          = PyStr.startswith (String x m) sub || PyStr.contains sub m) in H.
      apply orb_true_iff in H as [H | H].
      + destruct (Hpre _ _ H) as [v Hv]. now exists "", v.
      + destruct (IH H) as [u [v ->]]. now exists (String x u), v. }
  intros H. destruct (Hsplit m H) as [u [v ->]].
  replace (a ++ (u ++ sub ++ v) ++ b) with ((a ++ u) ++ sub ++ (v ++ b))
    by now rewrite !append_assoc.
  apply contains_append.
Qed.

Lemma all_chars_cons (p : ascii -> bool) (c : ascii) (s : string) :
  all_chars p (String c s) = true -> p c = true /\ all_chars p s = true.
Proof. simpl. now rewrite andb_true_iff. Qed.

Lemma all_chars_append (p : ascii -> bool) (x y : string) :
  all_chars p (x ++ y) = all_chars p x && all_chars p y.
Proof.
  induction x as [|c x IH]; simpl; [reflexivity |].
  now rewrite IH, andb_assoc.
Qed.



(** *** [split] *)




(** *** [lstrip], [rstrip] *)

Section Strip.
Variable p : ascii -> bool.











End Strip.

End StringFacts.

(* ================================================================= *)
(** ** Facts about [str.format] *)

Section FormatFacts.
Context {World : Type} `{RT : Runtime World}.
Import PyFormat.


(** Literal text without braces is copied to the output. *)
Lemma format_from_literal (kwargs : Series) (text out rest : string) :
  plain_text text = true ->
  format_from kwargs InLiteral out (text ++ rest)
  = format_from kwargs InLiteral (out ++ text) rest.
Proof.
  revert out. induction text as [|c text IH]; intros out Hplain.
  - simpl. now rewrite append_nil_r.
  - apply all_chars_cons in Hplain as [Hc Hplain].
    rewrite negb_true_iff in Hc. simpl in Hc.
    rewrite !orb_false_iff in Hc. destruct Hc as (Ho & Hc & _).
    simpl. rewrite Ho, Hc. rewrite IH by assumption.
    now rewrite append_assoc.
Qed.








End FormatFacts.

(* ================================================================= *)
(** ** The rendering step of [generate_text_from_row] *)

Section RenderFacts.
Context {World : Type} `{RT : Runtime World}.
Import GeminiHandler.






End RenderFacts.

(** C1, at the template of the first end-to-end scenario: with both
    placeholder names columns of the record, [str.format] alone renders
    "Ad for Widget: Blue widget", but the check of the required keys
    takes the whitespace-separated word "{name}:" for the key "name}:",
    so the rendering step of [generate_text_from_row] raises [KeyError]
    instead of returning the rendered prompt. *)
Theorem C1_placeholder_before_punctuation_rejected :
  forall (World : Type) (RT : Runtime World),
    GeminiHandler.required_keys "Ad for {name}: {desc}" = ["name}:"; "desc"]
    /\ PyFormat.format "Ad for {name}: {desc}" Mock.widget_row
       = Ok "Ad for Widget: Blue widget"
    /\ exists e,
         GeminiHandler.render_prompt Mock.widget_row "Ad for {name}: {desc}" = Raise e
         /\ exn_class e = KeyError.
Proof.
  intros World RT. split; [reflexivity |]. split; [reflexivity |].
  eexists. split; reflexivity.
Qed.



(** The same for a template of literal text and placeholders, one of
    them naming a column with a blank in it. *)
Example render_prompt_missing_spaced_column :
  exists e,
    GeminiHandler.render_prompt (RT := Mock.runtime) Mock.widget_row
      (template_of [Lit "Ad for "; Placeholder "name"; Lit " by ";
                    Placeholder "brand name"]) = Raise e
    /\ exn_class e = KeyError.
Proof. eexists. split; reflexivity. Qed.

(** A field name that starts with digits is read as a number only
    when it holds nothing else; but digits that no longer fit an index
    raise [ValueError] as they are read, whatever follows them. *)
Example format_digits_in_field_names :
  PyFormat.format (RT := Mock.runtime) "{12x}" [("12x", "v")] = Ok "v"
  /\ PyFormat.format (RT := Mock.runtime) "{9223372036854775808x}"
       [("9223372036854775808x", "v")]
     = Raise (Exn ValueError "Too many decimal digits in format string")
  /\ PyFormat.format (RT := Mock.runtime) "{9223372036854775807}"
       [("9223372036854775807", "v")]
     = Raise (Exn IndexError
                ("Replacement index 9223372036854775807 out of range "
                 ++ "for positional args tuple"))
  /\ plain_name "12x" = true
  /\ plain_name "9223372036854775808x" = false.
Proof. repeat split; reflexivity. Qed.

(* ================================================================= *)
(** ** The batch loop of [main] *)

Section BatchFacts.
Context {World : Type} `{RT : Runtime World}.
Import GeminiHandler XlsHandler Main.

Lemma iterrows_length (df : DataFrame) : List.length (iterrows df) = df_len df.
Proof. unfold iterrows, df_len. apply length_map. Qed.

Lemma integer_labels_iterrows (df : DataFrame) :
  integer_labels (iterrows df) = integer_labels (df_rows df).
Proof.
  unfold iterrows, integer_labels.
  induction (df_rows df) as [|r rows IH]; [reflexivity |].
  simpl. now rewrite IH.
Qed.



(** The log grows by the calls of [generate_text_from_row] only. *)
Lemma process_row_state (total : nat) (template : string) (index : label)
  (row : Series) (results : list string) (s : state World) :
  snd (process_row total template index row results s)
  = snd (generate_text_from_row row template "gemini-pro" s).
Proof.
  unfold process_row.
  destruct (generate_text_from_row row template "gemini-pro" s) as [[text|e] s'];
    [| reflexivity].
  now destruct (res_bind (row_number index) _).
Qed.

Section Printed.
Hypothesis Hconsole : console_ok RT.

Lemma record_failure_records (z : Z) (e : exn) (results : list string) (w : World) :
  record_failure (LInt z) e results w = Ok (results ++ [recorded (Raise e)])%list.
Proof.
  unfold record_failure, recorded, row_number.
  destruct (isinstance e GeminiAPIError);
    [| destruct (isinstance e KeyError)];
    cbv beta iota delta [res_bind]; now rewrite Hconsole.
Qed.

(** With its message printed, one pass of the loop appends exactly one
    value: the generated text, or the placeholder of the exception. *)
Lemma process_row_records (total : nat) (template : string) (z : Z)
  (row : Series) (results : list string) (s : state World) :
  process_row total template (LInt z) row results s
  = (Ok (results ++ [recorded (fst (generate_text_from_row row template "gemini-pro" s))])%list,
     snd (generate_text_from_row row template "gemini-pro" s)).
Proof.
  unfold process_row.
  destruct (generate_text_from_row row template "gemini-pro" s) as [[text|e] s'].
  - unfold row_number. cbv beta iota delta [res_bind]. now rewrite Hconsole.
  - now rewrite record_failure_records.
Qed.

Lemma process_rows_records (total : nat) (template : string)
  (rows : list (label * Series)) (s : state World) :
  integer_labels rows = true ->
  exists values s',
    List.length values = List.length rows
    /\ forall results,
         process_rows total template rows results s = (Ok (results ++ values)%list, s').
Proof.
  revert s. induction rows as [|[index row] rows IH]; intros s Hlabels.
  - exists [], s. split; [reflexivity |]. intros results. simpl. now rewrite app_nil_r.
  - unfold integer_labels in Hlabels. simpl in Hlabels.
    apply andb_true_iff in Hlabels as [Hindex Hlabels].
    destruct index as [z|]; [| discriminate].
    destruct (IH (snd (generate_text_from_row row template "gemini-pro" s)) Hlabels)
      as [values [s' [Hlen Hrest]]].
    exists (recorded (fst (generate_text_from_row row template "gemini-pro" s)) :: values), s'.
    split; [simpl; now rewrite Hlen |].
    intros results. simpl. rewrite process_row_records, Hrest.
    now rewrite <- app_assoc.
Qed.

End Printed.

End BatchFacts.




(* ================================================================= *)
(** ** The generation step of [generate_text_from_row] *)

Section GenerationFacts.
Context {World : Type} `{RT : Runtime World}.
Import GeminiHandler.

(** Once [response] is bound, or for anything but a [KeyError], the
    [except] clauses of the generation step raise [GeminiAPIError]. *)
Lemma generation_error_class (prompt : string) (response : option Response) (e : exn) :
  response <> None \/ isinstance e KeyError = false ->
  exn_class (generation_error prompt response e) = GeminiAPIError.
Proof.
  intros H. unfold generation_error.
  destruct (isinstance e GoogleAPIError || isinstance e RetryError); [reflexivity |].
  destruct (isinstance e KeyError) eqn:Hkey; [| reflexivity].
  destruct response; [reflexivity |].
  destruct H as [H | H]; [now elim H | discriminate].
Qed.

(** An empty-generation error goes through the last [except] clause,
    which keeps its text. *)
Lemma generation_error_of_GeminiAPIError (prompt msg : string) (response : option Response) :
  generation_error prompt response (Exn GeminiAPIError msg)
  = Exn GeminiAPIError
      ("An unexpected error occurred during text generation with Gemini "
       ++ "API: " ++ msg ++ ". Prompt: '" ++ prompt ++ "'").
Proof. reflexivity. Qed.

End GenerationFacts.




Section ExtractFacts.
Context {World : Type} `{RT : Runtime World}.
Import GeminiHandler.

(** What [extract_text] returns is the response's text or the text of
    its first candidate, as it is, and is not empty; read from a
    response with parts it is not blank either. *)
Lemma extract_text_returns (prompt : string) (response : Response) (text : string) :
  extract_text prompt response = Ok text ->
  text <> ""
  /\ (resp_text response = TextValue text
      \/ first_candidate_text response = Some text)
  /\ (forall parts, resp_parts response = Ok parts -> parts <> [] ->
        PyStr.strip text <> "").
Proof.
  unfold extract_text.
  destruct (resp_parts response) as [[|part parts]|e0];
    cbv beta iota delta [res_bind]; [| | discriminate].
  - destruct (first_candidate_text response) as [[|c t]|]; try discriminate.
    intros [= <-]. split; [discriminate |]. split; [now right |].
    intros parts [= <-] Hne. now elim Hne.
  - assert (Hsel : forall g : string,
               (if String.eqb (PyStr.strip g) "" then
                  Raise (Exn GeminiAPIError
                    ("Gemini API returned empty or whitespace text"
                     ++ block_reason_text response ++ " for prompt: '"
                     ++ prompt ++ "'"))
                else Ok g) = Ok text ->
               g = text /\ PyStr.strip text <> "").
    { intros g. destruct (String.eqb (PyStr.strip g) "") eqn:E; [discriminate |].
      intros [= <-]. split; [reflexivity | now apply String.eqb_neq]. }
    assert (Hne : PyStr.strip text <> "" -> text <> "").
    { intros Hs ->. now apply Hs. }
    destruct (resp_text response) as [|[|c t]|e0] eqn:Htext;
      cbv beta iota; try discriminate.
    + destruct (first_candidate_text response) as [t|]; cbv beta iota; intros H;
        apply Hsel in H as [<- Hs]; (split; [now apply Hne |]);
        (split; [| intros; assumption]); [now right | now elim Hs].
    + destruct (first_candidate_text response) as [t|]; cbv beta iota; intros H;
        apply Hsel in H as [<- Hs]; (split; [now apply Hne |]);
        (split; [| intros; assumption]); [now right | now elim Hs].
    + intros H. apply Hsel in H as [<- Hs]. split; [discriminate |].
      split; [now left | intros; assumption].
Qed.

(** What [extract_text] raises, unless reading the response itself
    raised, is an empty-generation error whose text holds the block
    reason text. *)
Lemma extract_text_raises (prompt : string) (response : Response)
  (parts : list Part) (e : exn) :
  extract_text prompt response = Raise e ->
  resp_parts response = Ok parts ->
  parts = [] \/ (forall e', resp_text response <> TextRaises e') ->
  exists before after,
    e = Exn GeminiAPIError (before ++ block_reason_text response ++ after).
Proof.
  unfold extract_text. intros Hraise Hparts Hread. rewrite Hparts in Hraise.
  cbv beta iota delta [res_bind] in Hraise. destruct parts as [|part parts].
  - destruct (first_candidate_text response) as [[|c t]|];
      try discriminate; injection Hraise as <-;
      exists "Gemini API returned an empty response or content was blocked";
      eexists; reflexivity.
  - destruct Hread as [Hread | Hread]; [discriminate |].
    destruct (resp_text response) as [|[|c t]|e0] eqn:Htext;
      cbv beta iota in Hraise.
    + destruct (first_candidate_text response) as [t|]; cbv beta iota in Hraise;
        destruct (String.eqb (PyStr.strip _) ""); try discriminate;
        injection Hraise as <-;
        exists "Gemini API returned empty or whitespace text";
        eexists; reflexivity.
    + destruct (first_candidate_text response) as [t|]; cbv beta iota in Hraise;
        destruct (String.eqb (PyStr.strip _) ""); try discriminate;
        injection Hraise as <-;
        exists "Gemini API returned empty or whitespace text";
        eexists; reflexivity.
    + destruct (String.eqb (PyStr.strip _) ""); try discriminate;
        injection Hraise as <-;
        exists "Gemini API returned empty or whitespace text";
        eexists; reflexivity.
    + now elim (Hread e0).
Qed.

End ExtractFacts.

(** C4, the claim as stated, fails when the API answers with the text
    "  Buy now!  ": [generate_text_from_row] returns it with its leading
    and trailing blanks, which [strip] would remove. *)
Lemma C4_returned_text_not_trimmed :
  fst (GeminiHandler.generate_text_from_row Mock.widget_row "Ad for {name}"
         "gemini-pro" (Mock.start Mock.padded_world))
  = Ok "  Buy now!  "
  /\ PyStr.strip "  Buy now!  " = "Buy now!"
  /\ ~ (forall (World : Type) (RT : Runtime World) (row : Series)
               (template model_name : string) (s : state World) (text : string),
           fst (GeminiHandler.generate_text_from_row row template model_name s)
           = Ok text ->
           PyStr.strip text = text /\ text <> "").
Proof.
  split; [reflexivity |]. split; [reflexivity |].
  intros H.
  destruct (H Mock.world Mock.runtime Mock.widget_row "Ad for {name}" "gemini-pro"
              (Mock.start Mock.padded_world) "  Buy now!  " eq_refl) as [Hstrip _].
  discriminate Hstrip.
Qed.

(** C4, amended: once the prompt is rendered and the API has answered,
    [generate_text_from_row] returns a non-empty string or raises
    [GeminiAPIError].  A returned string is the response's text or its
    first candidate's text as the API gave it, not trimmed, and when
    the response has parts it holds a non-blank character.  A response
    without parts whose first candidate gives no text or the empty
    text, and a response with parts whose text (the response's when it
    is not empty, else the first candidate's, else the empty string) is
    blank, make it raise [GeminiAPIError], and the error carries the
    block reason of the prompt feedback when there is one.  A response
    without parts whose first candidate gives a text that is not
    blank, and a response with parts whose text is not blank, make it
    return that text. *)
Theorem C4_generated_text_or_GeminiAPIError :
  forall (World : Type) (RT : Runtime World) (row : Series)
         (template model_name : string) (s : state World)
         (prompt : string) (response : Response) (w : World),
    GeminiHandler.render_prompt row template = Ok prompt ->
    genai_generate_content model_name prompt (st_world s) = (Ok response, w) ->
    let outcome := fst (GeminiHandler.generate_text_from_row row template model_name s) in
    match outcome with
    | Ok text =>
        text <> ""
        /\ (resp_text response = TextValue text
            \/ GeminiHandler.first_candidate_text response = Some text)
        /\ (forall parts, resp_parts response = Ok parts -> parts <> [] ->
              PyStr.strip text <> "")
    | Raise e =>
        exn_class e = GeminiAPIError
        /\ (forall parts feedback reason,
              resp_parts response = Ok parts ->
              parts = [] \/ (forall e', resp_text response <> TextRaises e') ->
              resp_prompt_feedback response = Some feedback ->
              block_reason feedback = Some reason ->
              PyStr.contains reason (exn_str e) = true)
    end
    /\ (resp_parts response = Ok [] ->
        GeminiHandler.first_candidate_text response = None
        \/ GeminiHandler.first_candidate_text response = Some "" ->
        exists e, outcome = Raise e /\ exn_class e = GeminiAPIError)
    /\ (forall part parts,
          resp_parts response = Ok (part :: parts) ->
          (exists text,
              resp_text response = TextValue text
              /\ text <> "" /\ PyStr.strip text = "")
          \/ ((resp_text response = TextAbsent \/ resp_text response = TextValue "")
              /\ (GeminiHandler.first_candidate_text response = None
                  \/ exists text,
                       GeminiHandler.first_candidate_text response = Some text
                       /\ PyStr.strip text = "")) ->
          exists e, outcome = Raise e /\ exn_class e = GeminiAPIError)
    /\ (forall text,
          resp_parts response = Ok [] ->
          GeminiHandler.first_candidate_text response = Some text ->
          PyStr.strip text <> "" ->
          outcome = Ok text)
    /\ (forall part parts text,
          resp_parts response = Ok (part :: parts) ->
          PyStr.strip text <> "" ->
          resp_text response = TextValue text
          \/ ((resp_text response = TextAbsent \/ resp_text response = TextValue "")
              /\ GeminiHandler.first_candidate_text response = Some text) ->
          outcome = Ok text).
Proof.
  intros World RT row template model_name s prompt response w Hrender Hcall outcome.
  assert (Hraise : forall e0,
             GeminiHandler.extract_text prompt response = Raise e0 ->
             exists e, outcome = Raise e /\ exn_class e = GeminiAPIError).
  { intros e0 He0. subst outcome.
    unfold GeminiHandler.generate_text_from_row. rewrite Hrender.
    unfold GeminiHandler.generate. rewrite Hcall, He0. simpl fst.
    eexists. split; [reflexivity |].
    apply generation_error_class. left. discriminate. }
  assert (Hreturn : forall text,
             GeminiHandler.extract_text prompt response = Ok text ->
             outcome = Ok text).
  { intros text Htext. subst outcome.
    unfold GeminiHandler.generate_text_from_row. rewrite Hrender.
    unfold GeminiHandler.generate. now rewrite Hcall, Htext. }
  assert (Hblank : forall text, PyStr.strip text <> "" -> text <> "").
  { intros text Hs ->. now apply Hs. }
  split; [| split; [| split; [| split]]].
  - subst outcome.
    unfold GeminiHandler.generate_text_from_row. rewrite Hrender.
    unfold GeminiHandler.generate. rewrite Hcall.
    destruct (GeminiHandler.extract_text prompt response) as [text|e] eqn:Hextract;
      simpl fst.
    + now apply extract_text_returns with (prompt := prompt).
    + split; [apply generation_error_class; left; discriminate |].
      intros parts feedback reason Hparts Hread Hfeedback Hreason.
      destruct (extract_text_raises prompt response parts e Hextract Hparts Hread)
        as [before [after ->]].
      apply (contains_inside
               ("An unexpected error occurred during text generation with Gemini "
                ++ "API: ")
               (before ++ GeminiHandler.block_reason_text response ++ after)
               (". Prompt: '" ++ prompt ++ "'") reason).
      apply contains_inside.
      unfold GeminiHandler.block_reason_text. rewrite Hfeedback, Hreason.
      apply (contains_append " (Reason: " reason ")").
  - intros Hparts Hnone.
    destruct (GeminiHandler.extract_text prompt response) as [text|e0] eqn:Hextract;
      [| now apply (Hraise e0)].
    exfalso. unfold GeminiHandler.extract_text in Hextract. rewrite Hparts in Hextract.
    cbv beta iota delta [res_bind] in Hextract.
    destruct Hnone as [Hnone | Hnone]; rewrite Hnone in Hextract; discriminate.
  - intros part parts Hparts Hcase.
    destruct (GeminiHandler.extract_text prompt response) as [text|e0] eqn:Hextract;
      [| now apply (Hraise e0)].
    exfalso. unfold GeminiHandler.extract_text in Hextract. rewrite Hparts in Hextract.
    cbv beta iota delta [res_bind] in Hextract.
    destruct Hcase as [[t [Htext [Hne Hstrip]]]
                      | [Htext [Hcand | [t [Hcand Hstrip]]]]].
    + rewrite Htext in Hextract. destruct t as [|c t]; [now elim Hne |].
      cbv beta iota in Hextract. rewrite Hstrip in Hextract. discriminate.
    + destruct Htext as [Htext | Htext]; rewrite Htext, Hcand in Hextract;
        discriminate.
    + destruct Htext as [Htext | Htext]; rewrite Htext, Hcand in Hextract;
        cbv beta iota in Hextract; rewrite Hstrip in Hextract; discriminate.
  - intros text Hparts Hcand Hstrip. apply Hreturn.
    unfold GeminiHandler.extract_text. rewrite Hparts.
    cbv beta iota delta [res_bind]. rewrite Hcand.
    destruct text as [|c t]; [now elim (Hblank "" Hstrip) | reflexivity].
  - intros part parts text Hparts Hstrip Hcase. apply Hreturn.
    unfold GeminiHandler.extract_text. rewrite Hparts.
    cbv beta iota delta [res_bind].
    apply String.eqb_neq in Hstrip.
    destruct Hcase as [Htext | [[Htext | Htext] Hcand]].
    + rewrite Htext. destruct text as [|c t]; [discriminate |].
      cbv beta iota. now rewrite Hstrip.
    + rewrite Htext, Hcand. cbv beta iota. now rewrite Hstrip.
    + rewrite Htext, Hcand. cbv beta iota. now rewrite Hstrip.
Qed.

Lemma C4_blocked_prompt_witness :
  exists e,
    fst (GeminiHandler.generate_text_from_row (RT := Mock.runtime)
           Mock.widget_row "Ad for {name}" "gemini-pro"
           (Mock.start Mock.blocked_world)) = Raise e
    /\ exn_class e = GeminiAPIError
    /\ PyStr.contains "SAFETY" (exn_str e) = true.
Proof.
  destruct (C4_generated_text_or_GeminiAPIError Mock.world Mock.runtime
              Mock.widget_row "Ad for {name}" "gemini-pro"
              (Mock.start Mock.blocked_world) "Ad for Widget"
              (Mock.blocked_response "SAFETY")
              {| Mock.env_key := Some "secret";
                 Mock.disk := [("in.csv", Mock.widget_table)];
                 Mock.replies := [] |} eq_refl eq_refl)
    as [Hcases [Hunusable _]].
  destruct (Hunusable eq_refl (or_introl eq_refl)) as [e [He Hclass]].
  exists e. split; [exact He |]. split; [exact Hclass |].
  rewrite He in Hcases. destruct Hcases as [_ Hreason].
  apply (Hreason [] {| block_reason := Some "SAFETY" |} "SAFETY");
    [reflexivity | now left | reflexivity | reflexivity].
Defined.

(* ================================================================= *)
(** ** Loading, saving and configuration *)

Section TableFacts.
Context {World : Type} `{RT : Runtime World}.
Import XlsHandler.

(** The reader [load_xls] picks and the call it logs. *)
Lemma load_xls_log (path : string) (s : state World) :
  st_log (snd (load_xls path s))
  = (st_log s
     ++ [if PyStr.endswith (PyStr.lower path) ".csv"
         then EvReadCsv path else EvReadExcel path])%list
  /\ st_world (snd (load_xls path s)) = st_world s.
Proof.
  unfold load_xls.
  destruct (if PyStr.endswith (PyStr.lower path) ".csv"
            then pd_read_csv path (st_world s)
            else pd_read_excel path (st_world s)) as [df|e]; [now split |].
  destruct (isinstance e FileNotFoundError); [now split |].
  destruct (isinstance e EmptyDataError); [now split |].
  destruct (_ || _ || _); now split.
Qed.

(** A write asked of pandas is logged, and succeeds for [save_xls] when
    it succeeds for pandas. *)
Lemma save_xls_through (d : DataFrame) (path : string) (q : write_request)
  (s : state World) :
  (let body :=
     if PyStr.endswith (PyStr.lower path) ".csv" then
       write (ToCsv d path false) s
     else if PyStr.endswith (PyStr.lower path) ".xlsx" then
       write (ToExcel d path false (Some "openpyxl")) s
     else if PyStr.endswith (PyStr.lower path) ".xls" then
       write (ToExcel d path false None) s
     else
       (Raise (Exn ValueError
          ("Unsupported file extension: " ++ path
           ++ ". Please use .csv, .xls, or .xlsx.")), s) in
   body = write q s) ->
  st_log (snd (save_xls (ObjDataFrame d) path s)) = (st_log s ++ [EvWrite q])%list
  /\ (fst (pd_write q (st_world s)) = Ok tt ->
      fst (save_xls (ObjDataFrame d) path s) = Ok tt).
Proof.
  intros Hbody. unfold save_xls. cbv zeta in Hbody. rewrite Hbody.
  unfold write. destruct (pd_write q (st_world s)) as [[[]|e] w]; simpl.
  - now split.
  - destruct (isinstance e OSError); (split; [reflexivity | discriminate]).
Qed.

End TableFacts.

(** C5, at the path of the module's own self-test: for a DataFrame and
    the path "unsupported.ext" the [ValueError] raised for the
    unsupported extension is caught by the [except Exception] clause of
    the same [try], and [save_xls] raises [IOError] with nothing
    written, as it does for every path that ends in none of .csv, .xlsx
    and .xls; for an input that is no DataFrame it raises [TypeError]
    with nothing written. *)
Theorem C5_unsupported_extension_raises_IOError :
  forall (World : Type) (RT : Runtime World) (df : DataFrame) (s : state World),
    XlsHandler.save_xls (XlsHandler.ObjDataFrame df) "unsupported.ext" s
    = (Raise (Exn OSError
         ("Error: Failed to save file 'unsupported.ext' due to an unexpected "
          ++ "error. Details: Unsupported file extension: unsupported.ext. "
          ++ "Please use .csv, .xls, or .xlsx.")), s)
    /\ (forall path : string,
          PyStr.endswith (PyStr.lower path) ".csv" = false ->
          PyStr.endswith (PyStr.lower path) ".xlsx" = false ->
          PyStr.endswith (PyStr.lower path) ".xls" = false ->
          exists e,
            XlsHandler.save_xls (XlsHandler.ObjDataFrame df) path s = (Raise e, s)
            /\ exn_class e = OSError)
    /\ (forall text path : string,
          XlsHandler.save_xls (XlsHandler.ObjStr text) path s
          = (Raise (Exn TypeError "Input 'df' must be a pandas DataFrame."), s)).
Proof.
  intros World RT df s. split; [reflexivity |]. split; [| reflexivity].
  intros path Hcsv Hxlsx Hxls. unfold XlsHandler.save_xls.
  rewrite Hcsv, Hxlsx, Hxls. eexists. split; reflexivity.
Qed.

(** C6, the claim as stated, fails for a CSV file with a header line
    and no data row: pandas reads it as a table with zero rows, and
    [load_xls] returns that table. *)
Lemma C6_header_only_file_is_returned :
  pd_read_csv "empty.csv" Mock.widget_world = Ok Mock.header_only_table
  /\ fst (XlsHandler.load_xls "empty.csv" (Mock.start Mock.widget_world))
     = Ok Mock.header_only_table
  /\ df_len Mock.header_only_table = 0
  /\ ~ (forall (World : Type) (RT : Runtime World) (path : string)
               (s : state World) (df : DataFrame),
           fst (XlsHandler.load_xls path s) = Ok df -> df_len df <> 0).
Proof.
  split; [reflexivity |]. split; [reflexivity |]. split; [reflexivity |].
  intros H.
  apply (H Mock.world Mock.runtime "empty.csv" (Mock.start Mock.widget_world)
           Mock.header_only_table); reflexivity.
Qed.

(** C6, amended: [load_xls] raises [FileNotFoundError] whenever the
    pandas reader does (the path does not exist) and [ValueError]
    whenever the reader raises [EmptyDataError] (nothing to parse); a
    table the reader returns is returned as it is, whatever its number
    of rows.  When [load_xls] fails, [main] exits with code 1 having
    made two calls, the configuration and the read: no generation call
    and no write. *)
Theorem C6_load_xls_outcomes :
  forall (World : Type) (RT : Runtime World) (args : Main.Args) (path : string)
         (s : state World),
    match (if PyStr.endswith (PyStr.lower path) ".csv"
           then pd_read_csv path (st_world s)
           else pd_read_excel path (st_world s)) with
    | Ok df => fst (XlsHandler.load_xls path s) = Ok df
    | Raise e =>
        exists e',
          fst (XlsHandler.load_xls path s) = Raise e'
          /\ (isinstance e FileNotFoundError = true ->
              exn_class e' = FileNotFoundError)
          /\ (isinstance e EmptyDataError = true -> exn_class e' = ValueError)
    end
    /\ (forall (s1 : state World) (e : exn),
          GeminiHandler.configure_gemini s = (Ok tt, s1) ->
          fst (XlsHandler.load_xls (Main.input_file args) s1) = Raise e ->
          fst (Main.main args s) = Main.SysExit Main.FileLoadingError
          /\ Main.exit_code (fst (Main.main args s)) = 1%Z
          /\ st_world (snd (Main.main args s)) = st_world s1
          /\ exists api_key,
               st_log (snd (Main.main args s))
               = (st_log s
                  ++ [EvConfigure api_key;
                      if PyStr.endswith (PyStr.lower (Main.input_file args)) ".csv"
                      then EvReadCsv (Main.input_file args)
                      else EvReadExcel (Main.input_file args)])%list).
Proof.
  intros World RT args path s. split.
  - unfold XlsHandler.load_xls.
    destruct (if PyStr.endswith (PyStr.lower path) ".csv"
              then pd_read_csv path (st_world s)
              else pd_read_excel path (st_world s)) as [df|[c msg]];
      [reflexivity |].
    unfold isinstance.
    destruct c; cbn [exn_class issubclass exc_class_eqb base_class orb exn_str];
      try (eexists; split; [reflexivity |]; split; intros; (reflexivity || discriminate));
      destruct (_ || _); eexists;
      (split; [reflexivity |]; split; intros; (reflexivity || discriminate)).
  - intros s1 e Hconf Hload.
    assert (Hkey : exists api_key,
               st_log s1 = (st_log s ++ [EvConfigure api_key])%list).
    { unfold GeminiHandler.configure_gemini in Hconf.
      destruct (os_getenv "GEMINI_API_KEY" (st_world s)) as [key|];
        [| discriminate].
      destruct (String.eqb key ""); [discriminate |].
      destruct (genai_configure key (st_world s)) as [[[]|e0] w];
        [| discriminate].
      injection Hconf as <-. now exists key. }
    destruct Hkey as [api_key Hkey].
    unfold Main.main. rewrite Hconf.
    pose proof (load_xls_log (Main.input_file args) s1) as [Hlog Hworld].
    destruct (XlsHandler.load_xls (Main.input_file args) s1) as [r s2].
    simpl in Hload, Hlog, Hworld. subst r.
    assert (Hfinal : exists api_key,
               st_log s2
               = (st_log s
                  ++ [EvConfigure api_key;
                      if PyStr.endswith (PyStr.lower (Main.input_file args)) ".csv"
                      then EvReadCsv (Main.input_file args)
                      else EvReadExcel (Main.input_file args)])%list).
    { exists api_key. rewrite Hlog, Hkey, <- app_assoc. reflexivity. }
    destruct (isinstance e FileNotFoundError); [now repeat split |].
    destruct (isinstance e ValueError); now repeat split.
Qed.


(** C7: when the environment variable GEMINI_API_KEY is unset,
    [configure_gemini] raises [ValueError] and [main] exits with code 1
    in the state it started in: no table is read, no record is
    processed and no file is written. *)
Theorem C7_unset_api_key_exits_with_1 :
  forall (World : Type) (RT : Runtime World) (args : Main.Args) (s : state World),
    os_getenv "GEMINI_API_KEY" (st_world s) = None ->
    (exists e, GeminiHandler.configure_gemini s = (Raise e, s)
               /\ exn_class e = ValueError)
    /\ Main.main args s = (Main.SysExit Main.ConfigurationError, s)
    /\ Main.exit_code (fst (Main.main args s)) = 1%Z.
Proof.
  intros World RT args s Hunset.
  assert (Hconf : exists e, GeminiHandler.configure_gemini s = (Raise e, s)
                            /\ exn_class e = ValueError).
  { unfold GeminiHandler.configure_gemini. rewrite Hunset.
    eexists. split; reflexivity. }
  split; [exact Hconf |].
  destruct Hconf as [e [Hconf Hclass]].
  assert (Hmain : Main.main args s = (Main.SysExit Main.ConfigurationError, s)).
  { unfold Main.main. rewrite Hconf. unfold isinstance. now rewrite Hclass. }
  split; [exact Hmain | now rewrite Hmain].
Qed.

Lemma C7_unset_api_key_witness :
  (exists e, GeminiHandler.configure_gemini (Mock.start Mock.no_key_world)
             = (Raise e, Mock.start Mock.no_key_world)
             /\ exn_class e = ValueError)
  /\ Main.main {| Main.input_file := "in.csv"; Main.output_file := "out.csv";
                  Main.prompt_template := "Ad for {name}";
                  Main.new_column_name := "ad" |}
               (Mock.start Mock.no_key_world)
     = (Main.SysExit Main.ConfigurationError, Mock.start Mock.no_key_world)
  /\ Main.exit_code
       (fst (Main.main {| Main.input_file := "in.csv"; Main.output_file := "out.csv";
                          Main.prompt_template := "Ad for {name}";
                          Main.new_column_name := "ad" |}
                       (Mock.start Mock.no_key_world))) = 1%Z.
Proof.
  apply (C7_unset_api_key_exits_with_1 Mock.world Mock.runtime).
  reflexivity.
Defined.

(* ================================================================= *)
(** ** Assigning the result column *)

Section ColumnFacts.

Lemma series_get_set_cell_other (cols : list string) (name column : string)
  (v : cell) (r : list cell) :
  column <> name ->
  series_get column (combine cols (set_cell cols name v r))
  = series_get column (combine cols r).
Proof.
  intros Hne. revert r. induction cols as [|c cols IH]; intros [|x r];
    try reflexivity.
  simpl. destruct (String.eqb c column) eqn:Hc.
  - apply String.eqb_eq in Hc. subst c.
    apply String.eqb_neq in Hne. now rewrite Hne.
  - apply IH.
Qed.

Lemma series_get_set_cell_same (cols : list string) (name : string)
  (v : cell) (r : list cell) :
  existsb (String.eqb name) cols = true ->
  List.length r = List.length cols ->
  series_get name (combine cols (set_cell cols name v r)) = Some v.
Proof.
  revert r. induction cols as [|c cols IH]; intros [|x r] Hin Hlen;
    try discriminate.
  simpl in *. destruct (String.eqb c name) eqn:Hc; [reflexivity |].
  rewrite String.eqb_sym, Hc in Hin. apply IH; [exact Hin | lia].
Qed.

Lemma series_get_appended_other (cols : list string) (name column : string)
  (v : cell) (r : list cell) :
  column <> name ->
  List.length r = List.length cols ->
  series_get column (combine (cols ++ [name]) (r ++ [v]))
  = series_get column (combine cols r).
Proof.
  intros Hne. revert r. induction cols as [|c cols IH]; intros [|x r] Hlen;
    try discriminate.
  - simpl. assert (H : String.eqb name column = false)
      by (apply String.eqb_neq; congruence).
    now rewrite H.
  - simpl. destruct (String.eqb c column); [reflexivity |].
    apply IH. simpl in Hlen. lia.
Qed.

Lemma series_get_appended_same (cols : list string) (name : string)
  (v : cell) (r : list cell) :
  existsb (String.eqb name) cols = false ->
  List.length r = List.length cols ->
  series_get name (combine (cols ++ [name]) (r ++ [v])) = Some v.
Proof.
  revert r. induction cols as [|c cols IH]; intros [|x r] Hnew Hlen;
    try discriminate.
  - simpl. now rewrite String.eqb_refl.
  - simpl in *. apply orb_false_iff in Hnew as [Hc Hnew].
    rewrite String.eqb_sym, Hc. apply IH; [exact Hnew | lia].
Qed.

Lemma map_fst_combine {A B : Type} (f : A -> B) (xs : list A) (ys : list cell) :
  List.length ys = List.length xs ->
  map (fun p => f (fst p)) (combine xs ys) = map f xs.
Proof.
  revert ys. induction xs as [|x xs IH]; intros [|y ys] Hlen;
    try discriminate; [reflexivity |].
  simpl. f_equal. apply IH. simpl in Hlen. lia.
Qed.

Lemma map_snd_combine {A B : Type} (f : cell -> B) (xs : list A) (ys : list cell) :
  List.length ys = List.length xs ->
  map (fun p => f (snd p)) (combine xs ys) = map f ys.
Proof.
  revert ys. induction xs as [|x xs IH]; intros [|y ys] Hlen;
    try discriminate; [reflexivity |].
  simpl. f_equal. apply IH. simpl in Hlen. lia.
Qed.

(** [df[name] = values] keeps every other column and sets the column
    [name]. *)
Lemma setitem_frame (df df' : DataFrame) (name : string) (values : list cell) :
  df_wf df ->
  setitem df name values = Ok df' ->
  df_columns df'
  = (if existsb (String.eqb name) (df_columns df)
     then df_columns df else (df_columns df ++ [name])%list)
  /\ (forall column, column <> name ->
        map (fun ir => series_get column (snd ir)) (iterrows df')
        = map (fun ir => series_get column (snd ir)) (iterrows df))
  /\ map (fun ir => series_get name (snd ir)) (iterrows df') = map Some values.
Proof.
  intros Hwf. unfold setitem.
  destruct (List.length values =? df_len df)%nat eqn:Hlen; simpl; [| discriminate].
  apply Nat.eqb_eq in Hlen. unfold df_len in Hlen. unfold df_wf in Hwf.
  rewrite Forall_forall in Hwf.
  destruct (existsb (String.eqb name) (df_columns df)) eqn:Hold;
    intros [= <-]; unfold iterrows; simpl; (split; [reflexivity |]); split.
  - intros column Hne. rewrite !map_map. cbn [fst snd].
    rewrite <- (map_fst_combine
                  (fun r => series_get column (combine (df_columns df) (snd r)))
                  (df_rows df) values Hlen).
    apply map_ext. intros [r v]. simpl. now apply series_get_set_cell_other.
  - rewrite <- (map_snd_combine Some (df_rows df) values Hlen).
    rewrite !map_map. cbn [fst snd]. apply map_ext_in. intros [r v] Hin. simpl.
    apply series_get_set_cell_same; [exact Hold |].
    apply (Hwf r). eapply in_combine_l; eassumption.
  - intros column Hne. rewrite !map_map. cbn [fst snd].
    rewrite <- (map_fst_combine
                  (fun r => series_get column (combine (df_columns df) (snd r)))
                  (df_rows df) values Hlen).
    apply map_ext_in. intros [r v] Hin. simpl.
    apply series_get_appended_other; [exact Hne |].
    apply (Hwf r). eapply in_combine_l; eassumption.
  - rewrite <- (map_snd_combine Some (df_rows df) values Hlen).
    rewrite !map_map. cbn [fst snd]. apply map_ext_in. intros [r v] Hin. simpl.
    apply series_get_appended_same; [exact Hold |].
    apply (Hwf r). eapply in_combine_l; eassumption.
Qed.

Lemma nth_error_set_cell_other (cols : list string) (name c : string)
  (v : cell) (r : list cell) (i : nat) :
  nth_error cols i = Some c -> c <> name ->
  nth_error (set_cell cols name v r) i = nth_error r i.
Proof.
  revert r i. induction cols as [|c0 cols IH]; intros [|x r] [|i] Hcol Hne;
    try discriminate; try reflexivity; simpl in *.
  - injection Hcol as ->. apply String.eqb_neq in Hne. now rewrite Hne.
  - now apply IH.
Qed.

(** [df[name] = values] keeps the cells at every position whose column
    has another name. *)
Lemma setitem_cells (df df' : DataFrame) (name : string) (values : list cell)
  (i : nat) (c : string) :
  df_wf df ->
  setitem df name values = Ok df' ->
  nth_error (df_columns df) i = Some c -> c <> name ->
  map (fun r => nth_error (snd r) i) (df_rows df')
  = map (fun r => nth_error (snd r) i) (df_rows df).
Proof.
  intros Hwf Hset Hcol Hne. unfold setitem in Hset.
  destruct (List.length values =? df_len df)%nat eqn:Hlen; simpl in Hset;
    [| discriminate].
  apply Nat.eqb_eq in Hlen. unfold df_len in Hlen. unfold df_wf in Hwf.
  rewrite Forall_forall in Hwf.
  rewrite <- (map_fst_combine (fun r => nth_error (snd r) i) (df_rows df) values Hlen).
  destruct (existsb (String.eqb name) (df_columns df));
    injection Hset as <-; simpl; rewrite map_map; apply map_ext_in;
    intros [r v] Hin; simpl.
  - now apply nth_error_set_cell_other with (c := c).
  - apply nth_error_app1. rewrite (Hwf r) by (eapply in_combine_l; eassumption).
    apply nth_error_Some. now rewrite Hcol.
Qed.

(** [df[name] = values] keeps the labels of the rows. *)
Lemma setitem_labels (df df' : DataFrame) (name : string) (values : list cell) :
  setitem df name values = Ok df' ->
  map fst (df_rows df') = map fst (df_rows df).
Proof.
  unfold setitem.
  destruct (List.length values =? df_len df)%nat eqn:Hlen; simpl; [| discriminate].
  apply Nat.eqb_eq in Hlen. unfold df_len in Hlen.
  rewrite <- (map_fst_combine fst (df_rows df) values Hlen).
  destruct (existsb (String.eqb name) (df_columns df));
    intros [= <-]; simpl; now rewrite map_map.
Qed.

End ColumnFacts.

(* ================================================================= *)
(** ** The calls [main] makes *)

Section LogFacts.
Context {World : Type} `{RT : Runtime World}.
Import GeminiHandler XlsHandler Main.

Lemma quiet_refl (l : list event) : quiet l l.
Proof. exists []. split; [now rewrite app_nil_r | intros q []]. Qed.

Lemma quiet_trans (l0 l1 l2 : list event) : quiet l0 l1 -> quiet l1 l2 -> quiet l0 l2.
Proof.
  intros [evs1 [-> H1]] [evs2 [-> H2]]. exists (evs1 ++ evs2)%list.
  split; [now rewrite app_assoc |].
  intros q Hin. apply in_app_or in Hin as [Hin | Hin]; [now apply (H1 q) | now apply (H2 q)].
Qed.

Lemma quiet_one (l : list event) (ev : event) :
  (forall q, ev <> EvWrite q) -> quiet l (l ++ [ev])%list.
Proof.
  intros Hev. exists [ev]. split; [reflexivity |].
  intros q [Hin | []]. now apply (Hev q).
Qed.

Lemma configure_gemini_quiet (s : state World) :
  quiet (st_log s) (st_log (snd (configure_gemini s))).
Proof.
  unfold configure_gemini.
  destruct (os_getenv "GEMINI_API_KEY" (st_world s)) as [key|]; [| apply quiet_refl].
  destruct (String.eqb key ""); [apply quiet_refl |].
  destruct (genai_configure key (st_world s)) as [[[]|e] w];
    apply quiet_one; discriminate.
Qed.

Lemma load_xls_quiet (path : string) (s : state World) :
  quiet (st_log s) (st_log (snd (load_xls path s))).
Proof.
  destruct (load_xls_log path s) as [-> _].
  apply quiet_one. destruct (PyStr.endswith _ _); discriminate.
Qed.

Lemma generate_text_from_row_quiet (row : Series) (template model_name : string)
  (s : state World) :
  quiet (st_log s) (st_log (snd (generate_text_from_row row template model_name s))).
Proof.
  unfold generate_text_from_row.
  destruct (render_prompt row template) as [prompt|e]; [| apply quiet_refl].
  unfold generate.
  destruct (genai_generate_content model_name prompt (st_world s)) as [[response|e] w].
  - destruct (extract_text prompt response); apply quiet_one; discriminate.
  - apply quiet_one; discriminate.
Qed.

Lemma process_rows_quiet (total : nat) (template : string)
  (rows : list (label * Series)) (results : list string) (s : state World) :
  quiet (st_log s) (st_log (snd (process_rows total template rows results s))).
Proof.
  revert results s. induction rows as [|[index row] rows IH]; intros results s; simpl.
  - apply quiet_refl.
  - pose proof (generate_text_from_row_quiet row template "gemini-pro" s) as Hq.
    rewrite <- (process_row_state total template index row results s) in Hq.
    destruct (process_row total template index row results s) as [[results'|e] s'];
      simpl in Hq; [| exact Hq].
    apply quiet_trans with (l1 := st_log s'); [exact Hq | apply IH].
Qed.

(** [save_xls] asks pandas for at most one write: of the table it was
    given, to the path it was given, without the index column. *)
Lemma save_xls_log (d : DataFrame) (path : string) (s : state World) :
  st_log (snd (save_xls (ObjDataFrame d) path s)) = st_log s
  \/ exists q,
       st_log (snd (save_xls (ObjDataFrame d) path s)) = (st_log s ++ [EvWrite q])%list
       /\ request_frame q = d /\ request_index q = false /\ request_path q = path.
Proof.
  unfold save_xls, write.
  destruct (PyStr.endswith (PyStr.lower path) ".csv").
  { right. exists (ToCsv d path false).
    destruct (pd_write _ (st_world s)) as [[[]|e] w]; simpl;
      [| destruct (isinstance e OSError)]; now repeat split. }
  destruct (PyStr.endswith (PyStr.lower path) ".xlsx").
  { right. exists (ToExcel d path false (Some "openpyxl")).
    destruct (pd_write _ (st_world s)) as [[[]|e] w]; simpl;
      [| destruct (isinstance e OSError)]; now repeat split. }
  destruct (PyStr.endswith (PyStr.lower path) ".xls").
  { right. exists (ToExcel d path false None).
    destruct (pd_write _ (st_world s)) as [[[]|e] w]; simpl;
      [| destruct (isinstance e OSError)]; now repeat split. }
  left. reflexivity.
Qed.

(** Whatever [main] writes is the loaded table with the result column
    assigned, written to the output path without the index column. *)
Lemma main_writes_assigned_table (args : Args) (s : state World) :
  exists evs,
    st_log (snd (main args s)) = (st_log s ++ evs)%list
    /\ forall q, In (EvWrite q) evs ->
         request_index q = false
         /\ request_path q = output_file args
         /\ exists s1 table values,
              fst (load_xls (input_file args) s1) = Ok table
              /\ List.length values = df_len table
              /\ setitem table (new_column_name args) values = Ok (request_frame q).
Proof.
  assert (Hquiet : forall l, quiet (st_log s) l ->
            exists evs, l = (st_log s ++ evs)%list
              /\ forall q, In (EvWrite q) evs ->
                   request_index q = false
                   /\ request_path q = output_file args
                   /\ exists s1 table values,
                        fst (load_xls (input_file args) s1) = Ok table
                        /\ List.length values = df_len table
                        /\ setitem table (new_column_name args) values
                           = Ok (request_frame q)).
  { intros l [evs [-> Hnone]]. exists evs. split; [reflexivity |].
    intros q Hin. now elim (Hnone q). }
  unfold main.
  pose proof (configure_gemini_quiet s) as Hconf.
  destruct (configure_gemini s) as [[[]|e] s1]; simpl in Hconf.
  2:{ destruct (isinstance e ValueError); [now apply Hquiet |].
      destruct (isinstance e GeminiAPIError); now apply Hquiet. }
  pose proof (load_xls_quiet (input_file args) s1) as Hload.
  destruct (load_xls (input_file args) s1) as [[table|e] s2] eqn:Hread;
    simpl in Hload.
  2:{ pose proof (quiet_trans _ _ _ Hconf Hload).
      destruct (isinstance e FileNotFoundError); [now apply Hquiet |].
      destruct (isinstance e ValueError); now apply Hquiet. }
  pose proof (process_rows_quiet (df_len table) (prompt_template args)
                (iterrows table) [] s2) as Hrows.
  destruct (process_rows (df_len table) (prompt_template args) (iterrows table) [] s2)
    as [[results|e] s3]; simpl in Hrows.
  2:{ apply Hquiet. exact (quiet_trans _ _ _ (quiet_trans _ _ _ Hconf Hload) Hrows). }
  pose proof (quiet_trans _ _ _ (quiet_trans _ _ _ Hconf Hload) Hrows) as Hq3.
  destruct (List.length results =? df_len table)%nat eqn:Hlen; [| now apply Hquiet].
  apply Nat.eqb_eq in Hlen.
  destruct (setitem table (new_column_name args) results) as [table'|e] eqn:Hset;
    [| now apply Hquiet].
  assert (Hfinal : exists evs,
            st_log (snd (save_xls (ObjDataFrame table') (output_file args) s3))
            = (st_log s ++ evs)%list
            /\ forall q, In (EvWrite q) evs ->
                 request_index q = false
                 /\ request_path q = output_file args
                 /\ exists s1 table values,
                      fst (load_xls (input_file args) s1) = Ok table
                      /\ List.length values = df_len table
                      /\ setitem table (new_column_name args) values
                         = Ok (request_frame q)).
  { destruct (save_xls_log table' (output_file args) s3)
      as [-> | [q0 [-> [Hframe [Hindex Hpath]]]]]; [now apply Hquiet |].
    destruct Hq3 as [evs [-> Hnone]]. exists (evs ++ [EvWrite q0])%list.
    split; [now rewrite app_assoc |].
    intros q Hin. apply in_app_or in Hin as [Hin | [[= <-] | []]];
      [now elim (Hnone q) |].
    split; [exact Hindex |]. split; [exact Hpath |].
    exists s1, table, results. rewrite Hread, Hframe. now repeat split. }
  destruct (save_xls (ObjDataFrame table') (output_file args) s3) as [[[]|e] s4];
    [exact Hfinal |].
  destruct (isinstance e OSError); exact Hfinal.
Qed.

End LogFacts.

(** C9: assigning the result column with [df[new_column_name] = results]
    keeps the column names (appending the new name when no column has
    it), leaves the cells of every other column as they were, by
    position and by name, and sets the cells of the column
    [new_column_name] to the results; [save_xls]
    asks pandas for at most one write, of the table it is given and
    with [index=False]; and every write [main] makes is of the loaded
    table with the result column assigned, to the output path, with
    [index=False]. *)
Theorem C9_only_new_column_assigned :
  forall (World : Type) (RT : Runtime World) (args : Main.Args)
         (df df' : DataFrame) (name : string) (results : list cell)
         (path : string) (s : state World),
    df_wf df ->
    setitem df name results = Ok df' ->
    df_columns df'
    = (if existsb (String.eqb name) (df_columns df)
       then df_columns df else (df_columns df ++ [name])%list)
    /\ (forall i column, nth_error (df_columns df) i = Some column ->
          column <> name ->
          map (fun r => nth_error (snd r) i) (df_rows df')
          = map (fun r => nth_error (snd r) i) (df_rows df))
    /\ (forall column, column <> name ->
          map (fun ir => series_get column (snd ir)) (iterrows df')
          = map (fun ir => series_get column (snd ir)) (iterrows df))
    /\ map (fun ir => series_get name (snd ir)) (iterrows df') = map Some results
    /\ (st_log (snd (XlsHandler.save_xls (XlsHandler.ObjDataFrame df') path s))
        = st_log s
        \/ exists q,
             st_log (snd (XlsHandler.save_xls (XlsHandler.ObjDataFrame df') path s))
             = (st_log s ++ [EvWrite q])%list
             /\ request_frame q = df' /\ request_index q = false
             /\ request_path q = path)
    /\ (exists evs,
          st_log (snd (Main.main args s)) = (st_log s ++ evs)%list
          /\ forall q, In (EvWrite q) evs ->
               request_index q = false
               /\ request_path q = Main.output_file args
               /\ exists s1 table values,
                    fst (XlsHandler.load_xls (Main.input_file args) s1) = Ok table
                    /\ List.length values = df_len table
                    /\ setitem table (Main.new_column_name args) values
                       = Ok (request_frame q)).
Proof.
  intros World RT args df df' name results path s Hwf Hset.
  destruct (setitem_frame df df' name results Hwf Hset) as [Hcols [Hother Hnew]].
  split; [exact Hcols |].
  split; [intros i column Hcol Hne; now apply setitem_cells with (name := name)
                                         (values := results) (c := column) |].
  split; [exact Hother |]. split; [exact Hnew |].
  split; [apply save_xls_log | apply main_writes_assigned_table].
Qed.

Lemma C9_overwrite_witness :
  df_columns {| df_columns := ["name"; "desc"];
                df_rows := [(LInt 0, ["Gadget"; "Blue widget"])] |}
  = ["name"; "desc"]
  /\ (forall column, column <> "name" ->
        map (fun ir => series_get column (snd ir))
            (iterrows {| df_columns := ["name"; "desc"];
                         df_rows := [(LInt 0, ["Gadget"; "Blue widget"])] |})
        = map (fun ir => series_get column (snd ir)) (iterrows Mock.widget_table))
  /\ map (fun ir => series_get "name" (snd ir))
         (iterrows {| df_columns := ["name"; "desc"];
                      df_rows := [(LInt 0, ["Gadget"; "Blue widget"])] |})
     = map Some ["Gadget"].
Proof.
  pose proof (C9_only_new_column_assigned Mock.world Mock.runtime
                {| Main.input_file := "in.csv"; Main.output_file := "out.csv";
                   Main.prompt_template := "Ad for {name}";
                   Main.new_column_name := "name" |}
                Mock.widget_table
                {| df_columns := ["name"; "desc"];
                   df_rows := [(LInt 0, ["Gadget"; "Blue widget"])] |}
                "name" ["Gadget"] "out.csv" (Mock.start Mock.widget_world)
                ltac:(repeat constructor) eq_refl) as (H1 & _ & H2 & H3 & _).
  exact (conj H1 (conj H2 H3)).
Defined.

(** C10: for a path ending, in any letter case, in .csv, .xlsx or .xls,
    [load_xls] reads delimited text for .csv and a spreadsheet
    otherwise, and [save_xls] asks pandas for the write of that format
    (CSV; Excel through openpyxl; Excel) and succeeds when the write
    does, so it does not raise the unsupported-extension error; and
    [load_xls] reads every path that does not end in .csv, in any
    letter case, as a spreadsheet. *)
Theorem C10_extension_case_insensitive :
  forall (World : Type) (RT : Runtime World) (stem ext : string)
         (d : DataFrame) (s : state World),
    PyStr.lower ext = ".csv" \/ PyStr.lower ext = ".xlsx" \/ PyStr.lower ext = ".xls" ->
    let path := stem ++ ext in
    let q := if String.eqb (PyStr.lower ext) ".csv" then ToCsv d path false
             else if String.eqb (PyStr.lower ext) ".xlsx"
                  then ToExcel d path false (Some "openpyxl")
                  else ToExcel d path false None in
    st_log (snd (XlsHandler.load_xls path s))
    = (st_log s ++ [if String.eqb (PyStr.lower ext) ".csv"
                    then EvReadCsv path else EvReadExcel path])%list
    /\ st_log (snd (XlsHandler.save_xls (XlsHandler.ObjDataFrame d) path s))
       = (st_log s ++ [EvWrite q])%list
    /\ (fst (pd_write q (st_world s)) = Ok tt ->
        fst (XlsHandler.save_xls (XlsHandler.ObjDataFrame d) path s) = Ok tt)
    /\ (forall other : string,
          PyStr.endswith (PyStr.lower other) ".csv" = false ->
          st_log (snd (XlsHandler.load_xls other s))
          = (st_log s ++ [EvReadExcel other])%list).
Proof.
  intros World RT stem ext d s Hext path q.
  assert (Hrest : forall other : string,
            PyStr.endswith (PyStr.lower other) ".csv" = false ->
            st_log (snd (XlsHandler.load_xls other s))
            = (st_log s ++ [EvReadExcel other])%list).
  { intros other Hother. destruct (load_xls_log other s) as [-> _].
    now rewrite Hother. }
  destruct (load_xls_log path s) as [Hload _]. rewrite Hload. clear Hload.
  assert (Hlower : PyStr.lower path = PyStr.lower stem ++ PyStr.lower ext)
    by apply lower_append.
  destruct Hext as [Hext | [Hext | Hext]]; subst q; rewrite Hext in *; simpl String.eqb;
    cbv iota.
  - assert (Hcsv : PyStr.endswith (PyStr.lower path) ".csv" = true)
      by (rewrite Hlower; apply endswith_append).
    rewrite Hcsv. split; [reflexivity |].
    apply and_assoc. split; [| exact Hrest].
    apply save_xls_through. cbv zeta. now rewrite Hcsv.
  - assert (Hcsv : PyStr.endswith (PyStr.lower path) ".csv" = false).
    { rewrite Hlower.
      change ".xlsx" with ("." ++ "xlsx"). rewrite <- append_assoc.
      now apply (endswith_other_tail _ "xlsx" "" ".csv"). }
    assert (Hxlsx : PyStr.endswith (PyStr.lower path) ".xlsx" = true)
      by (rewrite Hlower; apply endswith_append).
    rewrite Hcsv. split; [reflexivity |].
    apply and_assoc. split; [| exact Hrest].
    apply save_xls_through. cbv zeta. now rewrite Hcsv, Hxlsx.
  - assert (Hcsv : PyStr.endswith (PyStr.lower path) ".csv" = false).
    { rewrite Hlower. now apply (endswith_other_tail _ ".xls" "" ".csv"). }
    assert (Hxlsx : PyStr.endswith (PyStr.lower path) ".xlsx" = false).
    { rewrite Hlower.
      change ".xls" with (".xl" ++ "s"). rewrite <- append_assoc.
      now apply (endswith_other_tail _ "s" ".xls" "x"). }
    assert (Hxls : PyStr.endswith (PyStr.lower path) ".xls" = true)
      by (rewrite Hlower; apply endswith_append).
    rewrite Hcsv. split; [reflexivity |].
    apply and_assoc. split; [| exact Hrest].
    apply save_xls_through. cbv zeta. now rewrite Hcsv, Hxlsx, Hxls.
Qed.

Lemma C10_upper_case_csv_witness :
  st_log (snd (XlsHandler.load_xls ("OUT" ++ ".CSV") (Mock.start Mock.widget_world)))
  = [EvReadCsv "OUT.CSV"]
  /\ st_log (snd (XlsHandler.save_xls (XlsHandler.ObjDataFrame Mock.widget_table)
                    ("OUT" ++ ".CSV") (Mock.start Mock.widget_world)))
     = [EvWrite (ToCsv Mock.widget_table "OUT.CSV" false)]
  /\ (fst (pd_write (ToCsv Mock.widget_table "OUT.CSV" false) Mock.widget_world) = Ok tt ->
      fst (XlsHandler.save_xls (XlsHandler.ObjDataFrame Mock.widget_table)
             ("OUT" ++ ".CSV") (Mock.start Mock.widget_world)) = Ok tt)
  /\ (forall other : string,
        PyStr.endswith (PyStr.lower other) ".csv" = false ->
        st_log (snd (XlsHandler.load_xls other (Mock.start Mock.widget_world)))
        = [EvReadExcel other]).
Proof.
  apply (C10_extension_case_insensitive Mock.world Mock.runtime "OUT" ".CSV"
           Mock.widget_table (Mock.start Mock.widget_world)).
  left. reflexivity.
Defined.

(* ================================================================= *)
(** ** Further properties: configuration and the ways [main] ends *)

Section ConfigureFacts.
Context {World : Type} `{RT : Runtime World}.
Import GeminiHandler XlsHandler Main.

(** [configure_gemini] raises [ValueError] or [GeminiAPIError], nothing
    else. *)
Lemma configure_gemini_raises (s s' : state World) (e : exn) :
  configure_gemini s = (Raise e, s') ->
  exn_class e = ValueError \/ exn_class e = GeminiAPIError.
Proof.
  unfold configure_gemini.
  destruct (os_getenv "GEMINI_API_KEY" (st_world s)) as [key|].
  - destruct (String.eqb key ""); [intros [= <- _]; now left |].
    destruct (genai_configure key (st_world s)) as [[[]|e0] w];
      [discriminate | intros [= <- _]; now right].
  - intros [= <- _]. now left.
Qed.

(** As many values as the table has rows can be assigned. *)
Lemma setitem_fits (df : DataFrame) (name : string) (values : list cell) :
  List.length values = df_len df ->
  exists df', setitem df name values = Ok df'.
Proof.
  intros Hlen. unfold setitem. rewrite Hlen, Nat.eqb_refl. simpl.
  destruct (existsb (String.eqb name) (df_columns df)); eexists; reflexivity.
Qed.

(** [main] after a successful configuration and load, on a console
    that prints and a table labelled by integers: the loop collects
    one value per row, the column is assigned and the table saved. *)
Lemma main_after_load (args : Args) (s s1 s2 : state World) (df : DataFrame) :
  console_ok RT ->
  configure_gemini s = (Ok tt, s1) ->
  load_xls (input_file args) s1 = (Ok df, s2) ->
  integer_labels (df_rows df) = true ->
  exists results s3 df',
    process_rows (df_len df) (prompt_template args) (iterrows df) [] s2
    = (Ok results, s3)
    /\ List.length results = df_len df
    /\ setitem df (new_column_name args) results = Ok df'
    /\ main args s
       = match save_xls (ObjDataFrame df') (output_file args) s3 with
         | (Ok _, s4) => (Completed, s4)
         | (Raise _, s4) => (SysExit FileSavingError, s4)
         end.
Proof.
  intros Hconsole Hconf Hload Hlabels.
  rewrite <- integer_labels_iterrows in Hlabels.
  destruct (process_rows_records Hconsole (df_len df) (prompt_template args)
              (iterrows df) s2 Hlabels) as [results [s3 [Hlen Hrun]]].
  rewrite iterrows_length in Hlen.
  destruct (setitem_fits df (new_column_name args) results Hlen) as [df' Hset].
  exists results, s3, df'. split; [apply (Hrun []) |]. split; [exact Hlen |].
  split; [exact Hset |].
  unfold main. rewrite Hconf, Hload, (Hrun []). cbn [app].
  rewrite Hlen, Nat.eqb_refl, Hset.
  destruct (save_xls (ObjDataFrame df') (output_file args) s3) as [[[]|e] s4];
    [reflexivity |].
  now destruct (isinstance e OSError).
Qed.

End ConfigureFacts.

(** X1: an API key set to the empty string counts as unset:
    [configure_gemini] raises [ValueError] without calling the SDK, and
    [main] exits with code 1 in the state it started in. *)
Theorem X1_empty_api_key_counts_as_unset :
  forall (World : Type) (RT : Runtime World) (args : Main.Args) (s : state World),
    os_getenv "GEMINI_API_KEY" (st_world s) = Some "" ->
    (exists e, GeminiHandler.configure_gemini s = (Raise e, s)
               /\ exn_class e = ValueError)
    /\ Main.main args s = (Main.SysExit Main.ConfigurationError, s).
Proof.
  intros World RT args s Hkey.
  assert (Hconf : exists e, GeminiHandler.configure_gemini s = (Raise e, s)
                            /\ exn_class e = ValueError).
  { unfold GeminiHandler.configure_gemini. rewrite Hkey. simpl.
    eexists. split; reflexivity. }
  split; [exact Hconf |]. destruct Hconf as [e [Hconf Hclass]].
  unfold Main.main. rewrite Hconf. unfold isinstance. now rewrite Hclass.
Qed.

Lemma X1_empty_api_key_witness :
  (exists e, GeminiHandler.configure_gemini (Mock.start empty_key_world)
             = (Raise e, Mock.start empty_key_world)
             /\ exn_class e = ValueError)
  /\ Main.main demo_args (Mock.start empty_key_world)
     = (Main.SysExit Main.ConfigurationError, Mock.start empty_key_world).
Proof.
  apply (X1_empty_api_key_counts_as_unset Mock.world Mock.runtime).
  reflexivity.
Defined.

(** X2: when the key is set and not empty, [configure_gemini] hands it
    to the SDK once; if the SDK raises, it raises [GeminiAPIError] whose
    text holds the SDK's, and [main] exits with code 1 having made that
    one call: nothing is read, generated or written. *)
Theorem X2_rejected_api_key_exits_after_configure :
  forall (World : Type) (RT : Runtime World) (args : Main.Args) (s : state World)
         (api_key : string) (e : exn) (w : World),
    os_getenv "GEMINI_API_KEY" (st_world s) = Some api_key ->
    api_key <> "" ->
    genai_configure api_key (st_world s) = (Raise e, w) ->
    (exists e',
        GeminiHandler.configure_gemini s
        = (Raise e', State w (st_log s ++ [EvConfigure api_key])%list)
        /\ exn_class e' = GeminiAPIError
        /\ PyStr.contains (exn_str e) (exn_str e') = true)
    /\ Main.main args s
       = (Main.SysExit Main.ConfigurationError,
          State w (st_log s ++ [EvConfigure api_key])%list).
Proof.
  intros World RT args s api_key e w Hkey Hne Hsdk.
  assert (Hconf : GeminiHandler.configure_gemini s
                  = (Raise (Exn GeminiAPIError
                              ("Failed to configure Gemini API: " ++ exn_str e)),
                     State w (st_log s ++ [EvConfigure api_key])%list)).
  { unfold GeminiHandler.configure_gemini. rewrite Hkey.
    apply String.eqb_neq in Hne. rewrite Hne, Hsdk. reflexivity. }
  split.
  - eexists. split; [exact Hconf |]. split; [reflexivity |].
    cbn [exn_str].
    rewrite <- (append_nil_r (exn_str e)) at 2.
    apply (contains_append "Failed to configure Gemini API: " (exn_str e) "").
  - unfold Main.main. rewrite Hconf. reflexivity.
Qed.

Lemma X2_rejected_api_key_witness :
  (exists e',
      GeminiHandler.configure_gemini
        (RT := faulty_runtime (Some (Exn Exception "API key not valid")) None None None)
        (Mock.start Mock.widget_world)
      = (Raise e', State Mock.widget_world [EvConfigure "secret"])
      /\ exn_class e' = GeminiAPIError
      /\ PyStr.contains "API key not valid" (exn_str e') = true)
  /\ Main.main
       (RT := faulty_runtime (Some (Exn Exception "API key not valid")) None None None)
       demo_args (Mock.start Mock.widget_world)
     = (Main.SysExit Main.ConfigurationError,
        State Mock.widget_world [EvConfigure "secret"]).
Proof.
  apply (X2_rejected_api_key_exits_after_configure Mock.world
           (faulty_runtime (Some (Exn Exception "API key not valid")) None None None)
           demo_args (Mock.start Mock.widget_world) "secret"
           (Exn Exception "API key not valid") Mock.widget_world).
  - reflexivity.
  - discriminate.
  - reflexivity.
Defined.

(** X3: on a console that prints, and when the table it loads is
    labelled by integers, [main] does not end by an exception: it
    completes or leaves through one of its [sys.exit(1)] calls, and its
    exit code is 0 exactly when it completes. *)
Theorem X3_main_completes_or_exits :
  forall (World : Type) (RT : Runtime World) (args : Main.Args) (s : state World),
    console_ok RT ->
    loads_integer_labels RT args s ->
    (fst (Main.main args s) = Main.Completed
     \/ exists site, fst (Main.main args s) = Main.SysExit site)
    /\ (Main.exit_code (fst (Main.main args s)) = 0%Z
        <-> fst (Main.main args s) = Main.Completed).
Proof.
  intros World RT args s Hconsole Hlabels.
  assert (Hends : fst (Main.main args s) = Main.Completed
                  \/ exists site, fst (Main.main args s) = Main.SysExit site).
  { destruct (GeminiHandler.configure_gemini s) as [[[]|e] s1] eqn:Hconf.
    - destruct (XlsHandler.load_xls (Main.input_file args) s1) as [[table|e] s2]
        eqn:Hload.
      + destruct (main_after_load args s s1 s2 table Hconsole Hconf Hload
                    (Hlabels s1 s2 table Hconf Hload))
          as [results [s3 [table' [_ [_ [_ ->]]]]]].
        destruct (XlsHandler.save_xls _ _ s3) as [[[]|e] s4]; [now left |].
        right. now exists Main.FileSavingError.
      + right. exists Main.FileLoadingError. unfold Main.main. rewrite Hconf, Hload.
        now destruct (isinstance e FileNotFoundError), (isinstance e ValueError).
    - right. exists Main.ConfigurationError. unfold Main.main. rewrite Hconf.
      unfold isinstance.
      destruct (configure_gemini_raises s s1 e Hconf) as [-> | ->]; reflexivity. }
  split; [exact Hends |].
  destruct Hends as [-> | [site ->]]; simpl; split; (reflexivity || discriminate).
Qed.

Lemma X3_main_completes_witness :
  (fst (Main.main (RT := Mock.runtime) demo_args (Mock.start two_row_world))
   = Main.Completed
   \/ exists site,
        fst (Main.main (RT := Mock.runtime) demo_args (Mock.start two_row_world))
        = Main.SysExit site)
  /\ (Main.exit_code
        (fst (Main.main (RT := Mock.runtime) demo_args (Mock.start two_row_world)))
      = 0%Z
      <-> fst (Main.main (RT := Mock.runtime) demo_args (Mock.start two_row_world))
          = Main.Completed).
Proof.
  apply (X3_main_completes_or_exits Mock.world Mock.runtime demo_args
           (Mock.start two_row_world) (fun _ _ _ => eq_refl)).
  intros s1 s2 table Hconf Hload.
  injection Hconf as <-. vm_compute in Hload. injection Hload as <- _. reflexivity.
Defined.

(* ================================================================= *)
(** ** Further properties: rendering *)

Section SpacedFacts.
Context {World : Type} `{RT : Runtime World}.
Import GeminiHandler.

Lemma isspace_not_brace (c : ascii) :
  PyStr.isspace c = true -> PyStr.contains_char c "{}" = false.
Proof.
  destruct c as [[] [] [] [] [] [] [] []]; intros H;
    solve [reflexivity | discriminate H].
Qed.

Lemma brace_not_space (c : ascii) :
  PyStr.contains_char c "{}" = true -> PyStr.isspace c = false.
Proof.
  intros H. destruct (PyStr.isspace c) eqn:E; [| reflexivity].
  apply isspace_not_brace in E. congruence.
Qed.


Lemma plain_text_no_brace (c : ascii) (text : string) :
  PyStr.contains_char c "{}" = true -> plain_text text = true ->
  PyStr.contains_char c text = false.
Proof.
  intros Hc. unfold plain_text. induction text as [|d text IH]; [reflexivity |].
  intros H. apply all_chars_cons in H as [Hd H]. simpl. rewrite (IH H).
  rewrite orb_false_r. destruct (Ascii.eqb c d) eqn:E; [| reflexivity].
  apply Ascii.eqb_eq in E. subst d. rewrite Hc in Hd. discriminate.
Qed.


(** *** The words of a spaced template *)













(** *** Templates without braces *)

Lemma split_from_chars (q : ascii -> bool) (cur s : string) :
  all_chars q cur = true -> all_chars q s = true ->
  Forall (fun w => all_chars q w = true) (PyStr.split_from cur s).
Proof.
  revert cur. induction s as [|c s IH]; intros cur Hcur Hs; simpl.
  - destruct (String.eqb cur ""); repeat constructor; assumption.
  - apply all_chars_cons in Hs as [Hc Hs].
    destruct (PyStr.isspace c).
    + destruct (String.eqb cur ""); [now apply IH |].
      constructor; [assumption | now apply IH].
    + apply IH; [| assumption].
      rewrite all_chars_append, Hcur. simpl. now rewrite Hc.
Qed.

Lemma required_keys_plain_text (template : string) :
  plain_text template = true -> required_keys template = [].
Proof.
  intros Hplain. unfold required_keys, PyStr.split.
  pose proof (split_from_chars _ "" template eq_refl Hplain) as Hwords.
  induction Hwords as [|w ws Hw _ IH]; [reflexivity |].
  simpl. now rewrite (plain_text_no_brace "{" w).
Qed.

Lemma format_plain_text (template : string) (row : Series) :
  plain_text template = true -> PyFormat.format template row = Ok template.
Proof.
  intros Hplain. pose proof (format_from_literal row template "" "" Hplain) as H.
  rewrite append_nil_r in H. exact H.
Qed.

End SpacedFacts.



(** X5: a template without braces is rendered as it is, for every
    record: nothing is required of the record's columns. *)
Theorem X5_template_without_braces_is_unchanged :
  forall (World : Type) (RT : Runtime World) (row : Series) (template : string),
    plain_text template = true ->
    GeminiHandler.render_prompt row template = Ok template.
Proof.
  intros World RT row template Hplain. unfold GeminiHandler.render_prompt.
  rewrite required_keys_plain_text by assumption. simpl.
  now rewrite format_plain_text.
Qed.

Lemma X5_template_without_braces_witness :
  GeminiHandler.render_prompt (RT := Mock.runtime) [] "Write a slogan, please."
  = Ok "Write a slogan, please.".
Proof.
  apply (X5_template_without_braces_is_unchanged Mock.world Mock.runtime).
  reflexivity.
Defined.

(* ================================================================= *)
(** ** Further properties: generation calls *)

Section CallFacts.
Context {World : Type} `{RT : Runtime World}.
Import GeminiHandler Main.

Lemma contains_suffix (a m sub : string) :
  PyStr.contains sub m = true -> PyStr.contains sub (a ++ m) = true.
Proof.
  intros H. rewrite <- (append_nil_r m). now apply contains_inside.
Qed.

(** One call when the prompt renders, none otherwise. *)
Lemma generate_text_from_row_calls (row : Series) (template model_name : string)
  (s : state World) :
  st_log (snd (generate_text_from_row row template model_name s))
  = (st_log s
     ++ map (EvGenerate model_name)
            match render_prompt row template with
            | Ok prompt => [prompt]
            | Raise _ => []
            end)%list.
Proof.
  unfold generate_text_from_row.
  destruct (render_prompt row template) as [prompt|e]; simpl;
    [| now rewrite app_nil_r].
  unfold generate.
  destruct (genai_generate_content model_name prompt (st_world s)) as [[response|e] w].
  - now destruct (extract_text prompt response).
  - reflexivity.
Qed.

(** A row whose prompt does not render for want of a key raises
    [KeyError] and changes nothing. *)
Lemma generate_text_from_row_missing_key (template model_name : string) (row : Series)
  (s : state World) (e : exn) :
  render_prompt row template = Raise e ->
  generate_text_from_row row template model_name s = (Raise e, s).
Proof.
  intros Hrender. unfold generate_text_from_row. now rewrite Hrender.
Qed.

(** A row whose call raises anything but a [KeyError] raises
    [GeminiAPIError]. *)
Lemma generate_text_from_row_failed_call (template model_name : string) (row : Series)
  (s : state World) (prompt : string) (e : exn) (w : World) :
  render_prompt row template = Ok prompt ->
  genai_generate_content model_name prompt (st_world s) = (Raise e, w) ->
  isinstance e KeyError = false ->
  exists e',
    fst (generate_text_from_row row template model_name s) = Raise e'
    /\ exn_class e' = GeminiAPIError.
Proof.
  intros Hrender Hcall Hkey. unfold generate_text_from_row.
  rewrite Hrender. unfold generate. rewrite Hcall. simpl fst.
  eexists. split; [reflexivity |]. apply generation_error_class. now right.
Qed.

(** The prompts of the records that render, in record order. *)
Lemma process_rows_calls (total : nat) (template : string)
  (rows : list (label * Series)) (results : list string) (s : state World) :
  exists started,
    started <= List.length rows
    /\ st_log (snd (process_rows total template rows results s))
       = (st_log s
          ++ map (EvGenerate "gemini-pro")
               (flat_map (fun ir =>
                            match render_prompt (snd ir) template with
                            | Ok prompt => [prompt]
                            | Raise _ => []
                            end) (firstn started rows)))%list
    /\ (forall results',
          fst (process_rows total template rows results s) = Ok results' ->
          started = List.length rows).
Proof.
  revert results s. induction rows as [|[index row] rows IH]; intros results s.
  - exists 0. split; [reflexivity |]. split; [simpl; now rewrite app_nil_r |].
    reflexivity.
  - simpl process_rows.
    pose proof (f_equal st_log (process_row_state total template index row results s))
      as Hstate.
    rewrite generate_text_from_row_calls in Hstate.
    destruct (process_row total template index row results s) as [[results1|e] s1];
      simpl in Hstate.
    + destruct (IH results1 s1) as [started [Hle [Hlog Hall]]].
      exists (S started). split; [simpl; lia |]. split.
      * rewrite Hlog, Hstate. cbn [firstn flat_map snd].
        now rewrite map_app, app_assoc.
      * intros results' Hok. simpl. f_equal. now apply (Hall results').
    + exists 1. split; [simpl; lia |]. split.
      * cbn [firstn flat_map snd fst]. rewrite Hstate.
        now rewrite app_nil_r.
      * intros results' Hok. discriminate Hok.
Qed.

End CallFacts.

(** X6: the loop makes at most one generation call for each record:
    exactly one, with the rendered prompt and the model "gemini-pro",
    for each record it reaches whose prompt renders, in record order,
    and none for a record whose prompt does not render; a failed call
    is never repeated.  The loop reaches every record unless an
    exception leaves it. *)
Theorem X6_one_generation_call_per_rendered_row :
  forall (World : Type) (RT : Runtime World) (total : nat) (template : string)
         (rows : list (label * Series)) (results : list string) (s : state World),
    let prompts := fun reached : list (label * Series) =>
      flat_map (fun ir =>
                  match GeminiHandler.render_prompt (snd ir) template with
                  | Ok prompt => [prompt]
                  | Raise _ => []
                  end) reached in
    (exists started,
        started <= List.length rows
        /\ st_log (snd (Main.process_rows total template rows results s))
           = (st_log s ++ map (EvGenerate "gemini-pro") (prompts (firstn started rows)))%list
        /\ (forall results',
              fst (Main.process_rows total template rows results s) = Ok results' ->
              started = List.length rows))
    /\ List.length (prompts rows) <= List.length rows.
Proof.
  intros World RT total template rows results s prompts. subst prompts. split.
  - apply process_rows_calls.
  - induction rows as [|[index row] rows IH]; simpl; [lia |].
    rewrite length_app.
    destruct (GeminiHandler.render_prompt row template); simpl; lia.
Qed.

(** X7: when the prompt is rendered and the call raises anything but a
    [KeyError] (a remote-API error among them), [generate_text_from_row]
    raises [GeminiAPIError] after that one call, and the error's text
    holds both the text of the exception raised and the prompt. *)
Theorem X7_failed_call_names_cause_and_prompt :
  forall (World : Type) (RT : Runtime World) (row : Series)
         (template model_name : string) (s : state World)
         (prompt : string) (e : exn) (w : World),
    GeminiHandler.render_prompt row template = Ok prompt ->
    genai_generate_content model_name prompt (st_world s) = (Raise e, w) ->
    isinstance e KeyError = false ->
    exists e',
      GeminiHandler.generate_text_from_row row template model_name s
      = (Raise e', State w (st_log s ++ [EvGenerate model_name prompt])%list)
      /\ exn_class e' = GeminiAPIError
      /\ PyStr.contains (exn_str e) (exn_str e') = true
      /\ PyStr.contains prompt (exn_str e') = true.
Proof.
  intros World RT row template model_name s prompt e w Hrender Hcall Hkey.
  unfold GeminiHandler.generate_text_from_row. rewrite Hrender.
  unfold GeminiHandler.generate. rewrite Hcall.
  eexists. split; [reflexivity |].
  split; [apply generation_error_class; now right |].
  unfold GeminiHandler.generation_error. rewrite Hkey.
  destruct (isinstance e GoogleAPIError || isinstance e RetryError); cbn [exn_str].
  - split.
    + apply (contains_append "Gemini API call failed: " (exn_str e)).
    + apply (contains_suffix "Gemini API call failed: "
               (exn_str e ++ ". Prompt: '" ++ prompt ++ "'")).
      apply contains_suffix. apply (contains_append ". Prompt: '" prompt "'").
  - split.
    + apply (contains_append
               ("An unexpected error occurred during text generation with Gemini "
                ++ "API: ") (exn_str e)).
    + apply (contains_suffix
               ("An unexpected error occurred during text generation with Gemini "
                ++ "API: ") (exn_str e ++ ". Prompt: '" ++ prompt ++ "'")).
      apply contains_suffix. apply (contains_append ". Prompt: '" prompt "'").
Qed.

Lemma X7_failed_call_witness :
  exists e',
    GeminiHandler.generate_text_from_row
      (RT := faulty_runtime None (Some (Exn GoogleAPIError "429 quota exceeded"))
                            None None)
      Mock.widget_row "Ad for {name}" "gemini-pro" (Mock.start Mock.widget_world)
    = (Raise e',
       State Mock.widget_world ([] ++ [EvGenerate "gemini-pro" "Ad for Widget"])%list)
    /\ exn_class e' = GeminiAPIError
    /\ PyStr.contains "429 quota exceeded" (exn_str e') = true
    /\ PyStr.contains "Ad for Widget" (exn_str e') = true.
Proof.
  apply (X7_failed_call_names_cause_and_prompt Mock.world
           (faulty_runtime None (Some (Exn GoogleAPIError "429 quota exceeded"))
                           None None)
           Mock.widget_row "Ad for {name}" "gemini-pro"
           (Mock.start Mock.widget_world) "Ad for Widget"
           (Exn GoogleAPIError "429 quota exceeded") Mock.widget_world);
    reflexivity.
Defined.

(** X8: when the response has parts, its direct text comes first: a
    non-blank [response.text] is returned as it is, whatever the
    candidates and the prompt feedback hold; only when that text is
    missing or empty is the first part of the first candidate returned
    (if it is not blank). *)
Theorem X8_response_text_before_candidates :
  forall (World : Type) (RT : Runtime World) (row : Series)
         (template model_name : string) (s : state World)
         (prompt : string) (response : Response) (w : World)
         (part : Part) (parts : list Part) (text : string),
    GeminiHandler.render_prompt row template = Ok prompt ->
    genai_generate_content model_name prompt (st_world s) = (Ok response, w) ->
    resp_parts response = Ok (part :: parts) ->
    resp_text response = TextValue text
    \/ ((resp_text response = TextAbsent \/ resp_text response = TextValue "")
        /\ GeminiHandler.first_candidate_text response = Some text) ->
    PyStr.strip text <> "" ->
    fst (GeminiHandler.generate_text_from_row row template model_name s) = Ok text.
Proof.
  intros World RT row template model_name s prompt response w part parts text
         Hrender Hcall Hparts Htext Hstrip.
  unfold GeminiHandler.generate_text_from_row. rewrite Hrender.
  unfold GeminiHandler.generate. rewrite Hcall.
  assert (Hextract : GeminiHandler.extract_text prompt response = Ok text).
  { unfold GeminiHandler.extract_text. rewrite Hparts.
    cbv beta iota delta [res_bind].
    apply String.eqb_neq in Hstrip.
    destruct Htext as [-> | [[-> | ->] ->]]; cbv beta iota.
    - destruct text as [|c text]; [discriminate Hstrip |].
      cbv beta iota. now rewrite Hstrip.
    - now rewrite Hstrip.
    - now rewrite Hstrip. }
  now rewrite Hextract.
Qed.

Lemma X8_response_text_witness :
  fst (GeminiHandler.generate_text_from_row (RT := Mock.runtime)
         Mock.widget_row "Ad for {name}" "gemini-pro"
         (Mock.start
            {| Mock.env_key := Some "secret"; Mock.disk := [];
               Mock.replies :=
                 [Ok {| resp_parts := Ok [ {| part_text := "from the parts" |} ];
                        resp_text := TextValue "Direct text";
                        resp_candidates :=
                          [ {| candidate_content :=
                                 Some {| content_parts :=
                                           [ {| part_text := "Candidate text" |} ] |} |} ];
                        resp_prompt_feedback :=
                          Some {| block_reason := Some "OTHER" |} |}] |}))
  = Ok "Direct text".
Proof.
  eapply (X8_response_text_before_candidates Mock.world Mock.runtime
            Mock.widget_row "Ad for {name}" "gemini-pro" _ "Ad for Widget").
  - reflexivity.
  - reflexivity.
  - reflexivity.
  - left. reflexivity.
  - discriminate.
Defined.

(* ================================================================= *)
(** ** Further properties: loading and saving *)

(** X9: a reader exception that is neither [FileNotFoundError] nor
    [EmptyDataError] becomes a [ValueError] naming the path and holding
    the reader's text when it is a [ValueError] or its text marks an
    undeterminable Excel format or an invalid CSV file; any other
    exception leaves [load_xls] as it is, unchanged. *)
Theorem X9_load_xls_translates_reader_errors :
  forall (World : Type) (RT : Runtime World) (path : string) (s : state World)
         (e : exn),
    (if PyStr.endswith (PyStr.lower path) ".csv"
     then pd_read_csv path (st_world s)
     else pd_read_excel path (st_world s)) = Raise e ->
    isinstance e FileNotFoundError = false ->
    isinstance e EmptyDataError = false ->
    if PyStr.contains "Excel file format cannot be determined" (exn_str e)
       || PyStr.contains "is not a valid Csv file" (exn_str e)
       || isinstance e ValueError
    then exists e',
           fst (XlsHandler.load_xls path s) = Raise e'
           /\ exn_class e' = ValueError
           /\ PyStr.contains path (exn_str e') = true
           /\ PyStr.contains (exn_str e) (exn_str e') = true
    else fst (XlsHandler.load_xls path s) = Raise e.
Proof.
  intros World RT path s e Hread Hmissing Hempty.
  unfold XlsHandler.load_xls. rewrite Hread, Hmissing, Hempty.
  destruct (_ || _ || _); [| reflexivity].
  eexists. split; [reflexivity |]. split; [reflexivity |]. cbn [exn_str]. split.
  - apply (contains_append
             "Error: File is not a valid Excel/CSV file or is corrupted: " path).
  - apply (contains_suffix
             "Error: File is not a valid Excel/CSV file or is corrupted: "
             (path ++ ". Details: " ++ exn_str e)).
    apply contains_suffix.
    rewrite <- (append_nil_r (exn_str e)) at 2.
    apply (contains_append ". Details: " (exn_str e) "").
Qed.

Lemma X9_corrupt_file_witness :
  if PyStr.contains "Excel file format cannot be determined"
       "Excel file format cannot be determined, you must specify an engine manually."
     || PyStr.contains "is not a valid Csv file"
          "Excel file format cannot be determined, you must specify an engine manually."
     || isinstance
          (Exn ValueError
             "Excel file format cannot be determined, you must specify an engine manually.")
          ValueError
  then exists e',
         fst (XlsHandler.load_xls
                (RT := faulty_runtime None None
                         (Some (Exn ValueError
                                  "Excel file format cannot be determined, you must specify an engine manually."))
                         None)
                "not_a_valid_file.txt" (Mock.start Mock.widget_world)) = Raise e'
         /\ exn_class e' = ValueError
         /\ PyStr.contains "not_a_valid_file.txt" (exn_str e') = true
         /\ PyStr.contains
              "Excel file format cannot be determined, you must specify an engine manually."
              (exn_str e') = true
  else fst (XlsHandler.load_xls
              (RT := faulty_runtime None None
                       (Some (Exn ValueError
                                "Excel file format cannot be determined, you must specify an engine manually."))
                       None)
              "not_a_valid_file.txt" (Mock.start Mock.widget_world))
       = Raise (Exn ValueError
                  "Excel file format cannot be determined, you must specify an engine manually.").
Proof.
  apply (X9_load_xls_translates_reader_errors Mock.world
           (faulty_runtime None None
              (Some (Exn ValueError
                       "Excel file format cannot be determined, you must specify an engine manually."))
              None)
           "not_a_valid_file.txt" (Mock.start Mock.widget_world)
           (Exn ValueError
              "Excel file format cannot be determined, you must specify an engine manually."));
    reflexivity.
Defined.

(** X10: [save_xls] raises nothing but [TypeError], for an input that is
    no DataFrame and with nothing written, and [IOError], whose text
    names the path; so the [except IOError] clause of [main] catches
    every failure to save. *)
Theorem X10_save_xls_raises_TypeError_or_IOError :
  forall (World : Type) (RT : Runtime World) (obj : XlsHandler.py_object)
         (path : string) (s s' : state World) (e : exn),
    XlsHandler.save_xls obj path s = (Raise e, s') ->
    match obj with
    | XlsHandler.ObjDataFrame _ =>
        exn_class e = OSError /\ PyStr.contains path (exn_str e) = true
    | _ => exn_class e = TypeError /\ s' = s
    end.
Proof.
  intros World RT obj path s s' e Hsave.
  destruct obj as [d|text|]; simpl in Hsave;
    try (injection Hsave as <- <-; now split).
  unfold XlsHandler.save_xls in Hsave.
  assert (Hos : forall e0 : exn,
            PyStr.contains path
              ("Error: Could not write file to path: " ++ path
               ++ ". Details: " ++ exn_str e0) = true)
    by (intros e0; apply (contains_append "Error: Could not write file to path: " path)).
  assert (Hother : forall e0 : exn,
            PyStr.contains path
              ("Error: Failed to save file '" ++ path
               ++ "' due to an unexpected error. Details: " ++ exn_str e0) = true)
    by (intros e0; apply (contains_append "Error: Failed to save file '" path)).
  destruct (if PyStr.endswith (PyStr.lower path) ".csv" then _ else _)
    as [[[]|e0] s0]; [discriminate |].
  destruct (isinstance e0 OSError); injection Hsave as <- _; split;
    solve [reflexivity | apply Hos | apply Hother].
Qed.

Lemma X10_write_failure_witness :
  exn_class
    (Exn OSError
       ("Error: Could not write file to path: out.csv. Details: "
        ++ "[Errno 13] Permission denied")) = OSError
  /\ PyStr.contains "out.csv"
       (exn_str
          (Exn OSError
             ("Error: Could not write file to path: out.csv. Details: "
              ++ "[Errno 13] Permission denied"))) = true.
Proof.
  apply (X10_save_xls_raises_TypeError_or_IOError Mock.world
           (faulty_runtime None None None
              (Some (Exn OSError "[Errno 13] Permission denied")))
           (XlsHandler.ObjDataFrame Mock.widget_table) "out.csv"
           (Mock.start Mock.widget_world)
           (State Mock.widget_world
              [EvWrite (ToCsv Mock.widget_table "out.csv" false)])).
  reflexivity.
Defined.

(* ================================================================= *)
(** ** Further properties: the whole run *)

Section RunFacts.
Context {World : Type} `{RT : Runtime World}.
Import GeminiHandler XlsHandler Main.

Lemma setitem_len (df df' : DataFrame) (name : string) (values : list cell) :
  setitem df name values = Ok df' -> df_len df' = df_len df.
Proof.
  unfold setitem.
  destruct (List.length values =? df_len df)%nat eqn:Hlen; simpl; [| discriminate].
  apply Nat.eqb_eq in Hlen. unfold df_len in *.
  destruct (existsb (String.eqb name) (df_columns df)); intros [= <-]; simpl;
    rewrite length_map, length_combine; lia.
Qed.

(** With every message printed, rows whose generation raises
    [GeminiAPIError] all record ERROR_API, and rows whose prompt raises
    [KeyError] all record ERROR_KEY and make no call. *)
Lemma process_rows_all_ERROR_API (total : nat) (template : string)
  (rows : list (label * Series)) (results : list string) (s : state World) :
  console_ok RT ->
  integer_labels rows = true ->
  (forall prompt w, exists e w',
      genai_generate_content "gemini-pro" prompt w = (Raise e, w')
      /\ isinstance e KeyError = false) ->
  (forall ir, In ir rows ->
     exists prompt, render_prompt (snd ir) template = Ok prompt) ->
  fst (process_rows total template rows results s)
  = Ok (results ++ repeat "ERROR_API" (List.length rows))%list.
Proof.
  intros Hconsole Hlabels Hcalls. revert results s Hlabels.
  induction rows as [|[index row] rows IH]; intros results s Hlabels Hrender.
  - simpl. now rewrite app_nil_r.
  - unfold integer_labels in Hlabels. simpl in Hlabels.
    apply andb_true_iff in Hlabels as [Hindex Hlabels].
    destruct index as [z|]; [| discriminate].
    destruct (Hrender (LInt z, row) (or_introl eq_refl)) as [prompt Hprompt].
    destruct (Hcalls prompt (st_world s)) as [e [w' [Hcall Hkey]]].
    destruct (generate_text_from_row_failed_call template "gemini-pro" row s prompt e w'
                Hprompt Hcall Hkey) as [e' [He' Hclass]].
    simpl process_rows. rewrite (process_row_records Hconsole), He'.
    rewrite IH by (exact Hlabels || (intros r Hr; apply Hrender; now right)).
    unfold recorded, isinstance. rewrite Hclass. simpl.
    now rewrite <- app_assoc.
Qed.

Lemma process_rows_all_ERROR_KEY (total : nat) (template : string)
  (rows : list (label * Series)) (results : list string) (s : state World) :
  console_ok RT ->
  integer_labels rows = true ->
  (forall ir, In ir rows ->
     exists e, render_prompt (snd ir) template = Raise e /\ exn_class e = KeyError) ->
  process_rows total template rows results s
  = (Ok (results ++ repeat "ERROR_KEY" (List.length rows))%list, s).
Proof.
  intros Hconsole. revert results.
  induction rows as [|[index row] rows IH]; intros results Hlabels Hrender.
  - simpl. now rewrite app_nil_r.
  - unfold integer_labels in Hlabels. simpl in Hlabels.
    apply andb_true_iff in Hlabels as [Hindex Hlabels].
    destruct index as [z|]; [| discriminate].
    destruct (Hrender (LInt z, row) (or_introl eq_refl)) as [e [He Hclass]].
    simpl process_rows. rewrite (process_row_records Hconsole).
    rewrite (generate_text_from_row_missing_key template "gemini-pro" row s e He).
    cbn [fst snd].
    rewrite IH by (exact Hlabels || (intros r Hr; apply Hrender; now right)).
    unfold recorded, isinstance. rewrite Hclass. simpl.
    now rewrite <- app_assoc.
Qed.

End RunFacts.

(** X11: on a console that prints, once the configuration and the load
    have succeeded and the loaded table is labelled by integers, the
    table [main] hands to [save_xls] is the loaded table with the
    result column assigned: it has the rows of the loaded table, under
    their labels, and the cell of the result column in each row is the
    value the loop collected for that row. *)
Theorem X11_saved_column_lines_up_with_rows :
  forall (World : Type) (RT : Runtime World) (args : Main.Args)
         (s s1 s2 : state World) (df : DataFrame),
    console_ok RT ->
    GeminiHandler.configure_gemini s = (Ok tt, s1) ->
    XlsHandler.load_xls (Main.input_file args) s1 = (Ok df, s2) ->
    integer_labels (df_rows df) = true ->
    df_wf df ->
    exists results s3 df',
      Main.process_rows (df_len df) (Main.prompt_template args) (iterrows df) [] s2
      = (Ok results, s3)
      /\ setitem df (Main.new_column_name args) results = Ok df'
      /\ df_len df' = df_len df
      /\ map fst (df_rows df') = map fst (df_rows df)
      /\ map (fun ir => series_get (Main.new_column_name args) (snd ir)) (iterrows df')
         = map Some results
      /\ snd (Main.main args s)
         = snd (XlsHandler.save_xls (XlsHandler.ObjDataFrame df')
                  (Main.output_file args) s3).
Proof.
  intros World RT args s s1 s2 df Hconsole Hconf Hload Hlabels Hwf.
  destruct (main_after_load args s s1 s2 df Hconsole Hconf Hload Hlabels)
    as [results [s3 [df' [Hloop [Hlen [Hset Hmain]]]]]].
  exists results, s3, df'. split; [exact Hloop |]. split; [exact Hset |].
  split; [now apply setitem_len in Hset |].
  split; [now apply setitem_labels in Hset |].
  split; [now apply (setitem_frame df df' _ _ Hwf Hset) |].
  rewrite Hmain.
  now destruct (XlsHandler.save_xls _ _ _) as [[[]|e] s4].
Qed.

Lemma X11_saved_column_witness :
  exists results s3 df',
    Main.process_rows (RT := Mock.runtime) (df_len two_row_table)
      "Ad for {name} : {desc}" (iterrows two_row_table) []
      (State two_row_world [EvConfigure "secret"; EvReadCsv "in.csv"])
    = (Ok results, s3)
    /\ setitem two_row_table "ad" results = Ok df'
    /\ df_len df' = df_len two_row_table
    /\ map fst (df_rows df') = map fst (df_rows two_row_table)
    /\ map (fun ir => series_get "ad" (snd ir)) (iterrows df') = map Some results
    /\ snd (Main.main (RT := Mock.runtime) demo_args (Mock.start two_row_world))
       = snd (XlsHandler.save_xls (RT := Mock.runtime) (XlsHandler.ObjDataFrame df')
                "out.csv" s3).
Proof.
  apply (X11_saved_column_lines_up_with_rows Mock.world Mock.runtime demo_args
           (Mock.start two_row_world)
           (State two_row_world [EvConfigure "secret"])
           (State two_row_world [EvConfigure "secret"; EvReadCsv "in.csv"])
           two_row_table (fun _ _ _ => eq_refl)).
  - reflexivity.
  - reflexivity.
  - reflexivity.
  - repeat constructor.
Defined.

(** X12: on a console that prints and a table labelled by integers,
    row failures do not change the exit code: once the configuration
    and the load have succeeded, [main] ends with exit code 0 exactly
    when [save_xls] succeeds, whatever the generation calls did. *)
Theorem X12_exit_code_ignores_row_failures :
  forall (World : Type) (RT : Runtime World) (args : Main.Args)
         (s s1 s2 : state World) (df : DataFrame),
    console_ok RT ->
    GeminiHandler.configure_gemini s = (Ok tt, s1) ->
    XlsHandler.load_xls (Main.input_file args) s1 = (Ok df, s2) ->
    integer_labels (df_rows df) = true ->
    exists results s3 df',
      Main.process_rows (df_len df) (Main.prompt_template args) (iterrows df) [] s2
      = (Ok results, s3)
      /\ setitem df (Main.new_column_name args) results = Ok df'
      /\ (Main.exit_code (fst (Main.main args s)) = 0%Z
          <-> fst (XlsHandler.save_xls (XlsHandler.ObjDataFrame df')
                     (Main.output_file args) s3) = Ok tt).
Proof.
  intros World RT args s s1 s2 df Hconsole Hconf Hload Hlabels.
  destruct (main_after_load args s s1 s2 df Hconsole Hconf Hload Hlabels)
    as [results [s3 [df' [Hloop [Hlen [Hset Hmain]]]]]].
  exists results, s3, df'. split; [exact Hloop |]. split; [exact Hset |].
  rewrite Hmain.
  destruct (XlsHandler.save_xls _ _ _) as [[[]|e] s4]; simpl;
    split; (reflexivity || discriminate).
Qed.

Lemma X12_exit_code_witness :
  exists results s3 df',
    Main.process_rows
      (RT := faulty_runtime None (Some (Exn GoogleAPIError "503 unavailable")) None None)
      (df_len two_row_table) "Ad for {name} : {desc}" (iterrows two_row_table) []
      (State two_row_world [EvConfigure "secret"; EvReadCsv "in.csv"])
    = (Ok results, s3)
    /\ setitem two_row_table "ad" results = Ok df'
    /\ (Main.exit_code
          (fst (Main.main
                  (RT := faulty_runtime None
                           (Some (Exn GoogleAPIError "503 unavailable")) None None)
                  demo_args (Mock.start two_row_world))) = 0%Z
        <-> fst (XlsHandler.save_xls
                   (RT := faulty_runtime None
                            (Some (Exn GoogleAPIError "503 unavailable")) None None)
                   (XlsHandler.ObjDataFrame df') "out.csv" s3) = Ok tt).
Proof.
  apply (X12_exit_code_ignores_row_failures Mock.world
           (faulty_runtime None (Some (Exn GoogleAPIError "503 unavailable")) None None)
           demo_args (Mock.start two_row_world)
           (State two_row_world [EvConfigure "secret"])
           (State two_row_world [EvConfigure "secret"; EvReadCsv "in.csv"])
           two_row_table (fun _ _ _ => eq_refl));
    reflexivity.
Defined.

(** X13: on a console that prints and rows labelled by integers, when
    every generation call raises something other than a [KeyError]
    (the service is unreachable, say) and every record's prompt
    renders, the loop records ERROR_API for every record. *)
Theorem X13_all_calls_failing_gives_all_ERROR_API :
  forall (World : Type) (RT : Runtime World) (total : nat) (template : string)
         (rows : list (label * Series)) (s : state World),
    console_ok RT ->
    integer_labels rows = true ->
    (forall prompt w, exists e w',
        genai_generate_content "gemini-pro" prompt w = (Raise e, w')
        /\ isinstance e KeyError = false) ->
    (forall ir, In ir rows ->
       exists prompt, GeminiHandler.render_prompt (snd ir) template = Ok prompt) ->
    fst (Main.process_rows total template rows [] s)
    = Ok (repeat "ERROR_API" (List.length rows)).
Proof.
  intros World RT total template rows s Hconsole Hlabels Hcalls Hrender.
  apply (process_rows_all_ERROR_API total template rows [] s
           Hconsole Hlabels Hcalls Hrender).
Qed.

Lemma X13_all_calls_failing_witness :
  fst (Main.process_rows
         (RT := faulty_runtime None (Some (Exn GoogleAPIError "503 unavailable"))
                               None None)
         2 "Ad for {name} : {desc}" (iterrows two_row_table) []
         (Mock.start two_row_world))
  = Ok (repeat "ERROR_API" (List.length (iterrows two_row_table))).
Proof.
  apply (X13_all_calls_failing_gives_all_ERROR_API Mock.world
           (faulty_runtime None (Some (Exn GoogleAPIError "503 unavailable")) None None)
           2 "Ad for {name} : {desc}" (iterrows two_row_table)
           (Mock.start two_row_world) (fun _ _ _ => eq_refl) eq_refl).
  - intros prompt w. exists (Exn GoogleAPIError "503 unavailable"), w.
    split; reflexivity.
  - intros ir [<- | [<- | []]]; eexists; reflexivity.
Defined.

(** X14: on a console that prints and rows labelled by integers, when
    the prompt of every record fails to render for want of a key, the
    loop records ERROR_KEY for every record and ends in the state it
    started in: no generation call is made. *)
Theorem X14_unrenderable_template_makes_no_call :
  forall (World : Type) (RT : Runtime World) (total : nat) (template : string)
         (rows : list (label * Series)) (s : state World),
    console_ok RT ->
    integer_labels rows = true ->
    (forall ir, In ir rows ->
       exists e, GeminiHandler.render_prompt (snd ir) template = Raise e
                 /\ exn_class e = KeyError) ->
    Main.process_rows total template rows [] s
    = (Ok (repeat "ERROR_KEY" (List.length rows)), s).
Proof.
  intros World RT total template rows s Hconsole Hlabels Hrender.
  apply (process_rows_all_ERROR_KEY total template rows [] s
           Hconsole Hlabels Hrender).
Qed.

Lemma X14_unrenderable_template_witness :
  Main.process_rows (RT := Mock.runtime) 2 "Ad for {name} : {missing}"
    (iterrows two_row_table) [] (Mock.start two_row_world)
  = (Ok (repeat "ERROR_KEY" (List.length (iterrows two_row_table))),
     Mock.start two_row_world).
Proof.
  apply (X14_unrenderable_template_makes_no_call Mock.world Mock.runtime
           2 "Ad for {name} : {missing}" (iterrows two_row_table)
           (Mock.start two_row_world) (fun _ _ _ => eq_refl) eq_refl).
  intros ir [<- | [<- | []]]; eexists; split; reflexivity.
Defined.

(* ================================================================= *)
(** ** Further properties: messages that cannot be printed *)

Section MessageFacts.
Context {World : Type} `{RT : Runtime World}.
Import GeminiHandler XlsHandler Main.

Lemma record_failure_string_label (l : string) (e : exn) (results : list string)
  (w : World) :
  exists e', record_failure (LStr l) e results w = Raise e'
             /\ exn_class e' = TypeError.
Proof.
  unfold record_failure.
  destruct (isinstance e GeminiAPIError); [| destruct (isinstance e KeyError)];
    eexists; split; reflexivity.
Qed.

(** Under a string label every pass of the loop ends by [TypeError]:
    after a failure the [except] clause cannot build its message, and
    after a success neither the [try] nor the last [except] clause
    can. *)
Lemma process_row_string_label (total : nat) (template l : string) (row : Series)
  (results : list string) (s : state World) :
  exists e,
    process_row total template (LStr l) row results s
    = (Raise e, snd (generate_text_from_row row template "gemini-pro" s))
    /\ exn_class e = TypeError.
Proof.
  unfold process_row.
  destruct (generate_text_from_row row template "gemini-pro" s) as [[text|e] s'];
    simpl.
  - eexists. split; reflexivity.
  - destruct (record_failure_string_label l e results (st_world s')) as [e' [-> Hclass]].
    now exists e'.
Qed.

End MessageFacts.

(** X16: when the first row of the loaded table is labelled by a
    string, [main] ends by an uncaught [TypeError] in the first pass of
    its loop, after at most the one generation call of that row: exit
    code 1, and nothing is written. *)
Theorem X16_string_row_label_ends_the_run :
  forall (World : Type) (RT : Runtime World) (args : Main.Args)
         (s s1 s2 : state World) (df : DataFrame)
         (l : string) (cells : list cell) (rest : list (label * list cell)),
    GeminiHandler.configure_gemini s = (Ok tt, s1) ->
    XlsHandler.load_xls (Main.input_file args) s1 = (Ok df, s2) ->
    df_rows df = (LStr l, cells) :: rest ->
    exists e,
      Main.main args s
      = (Main.Uncaught e,
         snd (GeminiHandler.generate_text_from_row (combine (df_columns df) cells)
                (Main.prompt_template args) "gemini-pro" s2))
      /\ exn_class e = TypeError
      /\ Main.exit_code (fst (Main.main args s)) = 1%Z
      /\ quiet (st_log s) (st_log (snd (Main.main args s))).
Proof.
  intros World RT args s s1 s2 df l cells rest Hconf Hload Hrows.
  destruct (process_row_string_label (df_len df) (Main.prompt_template args) l
              (combine (df_columns df) cells) [] s2) as [e [Hrow Hclass]].
  assert (Hmain : Main.main args s
                  = (Main.Uncaught e,
                     snd (GeminiHandler.generate_text_from_row
                            (combine (df_columns df) cells)
                            (Main.prompt_template args) "gemini-pro" s2))).
  { unfold Main.main. rewrite Hconf, Hload. unfold iterrows. rewrite Hrows.
    simpl. now rewrite Hrow. }
  exists e. rewrite Hmain. split; [reflexivity |]. split; [exact Hclass |].
  split; [reflexivity |]. simpl.
  pose proof (configure_gemini_quiet s) as Hq1. rewrite Hconf in Hq1.
  pose proof (load_xls_quiet (Main.input_file args) s1) as Hq2. rewrite Hload in Hq2.
  exact (quiet_trans _ _ _ (quiet_trans _ _ _ Hq1 Hq2)
           (generate_text_from_row_quiet _ _ _ s2)).
Qed.

Lemma X16_string_row_label_witness :
  exists e,
    Main.main (RT := Mock.runtime) demo_args (Mock.start coded_world)
    = (Main.Uncaught e,
       snd (GeminiHandler.generate_text_from_row (RT := Mock.runtime)
              (combine (df_columns coded_table) ["Widget"; "Blue widget"])
              (Main.prompt_template demo_args) "gemini-pro"
              (State coded_world [EvConfigure "secret"; EvReadCsv "in.csv"])))
    /\ exn_class e = TypeError
    /\ Main.exit_code (fst (Main.main (RT := Mock.runtime) demo_args
                              (Mock.start coded_world))) = 1%Z
    /\ quiet (st_log (Mock.start coded_world))
             (st_log (snd (Main.main (RT := Mock.runtime) demo_args
                             (Mock.start coded_world)))).
Proof.
  apply (X16_string_row_label_ends_the_run Mock.world Mock.runtime demo_args
           (Mock.start coded_world)
           (State coded_world [EvConfigure "secret"])
           (State coded_world [EvConfigure "secret"; EvReadCsv "in.csv"])
           coded_table "W-1" ["Widget"; "Blue widget"]
           [(LStr "G-2", ["Gadget"; "Red gadget"])]);
    reflexivity.
Defined.

(** X17: when the text of a row is generated but its progress message
    cannot be printed, while the error message can, the row leaves two
    values in the results: the generated text, appended before the
    message is printed, and the placeholder of the exception raised by
    [print]. *)
Theorem X17_unprintable_progress_message_records_two_values :
  forall (World : Type) (RT : Runtime World) (total : nat) (template : string)
         (z : Z) (row : Series) (results : list string) (s : state World)
         (text : string) (e : exn),
    let generated := GeminiHandler.generate_text_from_row row template "gemini-pro" s in
    fst generated = Ok text ->
    py_print Stdout (Main.progress_message (PyStr.str_of_Z (z + 1)) total text)
             (st_world (snd generated)) = Raise e ->
    (forall message w, py_print Stderr message w = Ok tt) ->
    Main.process_row total template (LInt z) row results s
    = (Ok (results ++ [text; recorded (Raise e)])%list, snd generated).
Proof.
  intros World RT total template z row results s text e generated Htext Hprint Herr.
  subst generated. unfold Main.process_row.
  destruct (GeminiHandler.generate_text_from_row row template "gemini-pro" s)
    as [[text0|e0] s'] eqn:Hgen; simpl in Htext, Hprint; [| discriminate].
  injection Htext as ->.
  unfold Main.row_number. cbv beta iota delta [res_bind]. rewrite Hprint.
  unfold Main.record_failure, recorded, Main.row_number.
  destruct (isinstance e GeminiAPIError); [| destruct (isinstance e KeyError)];
    cbv beta iota delta [res_bind]; rewrite Herr; simpl;
    now rewrite <- app_assoc.
Qed.

Lemma X17_unprintable_progress_message_witness :
  Main.process_row (RT := ascii_console_runtime) 1 "Ad for {name}" (LInt 0)
    Mock.widget_row [] (Mock.start accented_world)
  = (Ok [accented_text; "ERROR_UNEXPECTED"],
     snd (GeminiHandler.generate_text_from_row (RT := ascii_console_runtime)
            Mock.widget_row "Ad for {name}" "gemini-pro" (Mock.start accented_world))).
Proof.
  apply (X17_unprintable_progress_message_records_two_values Mock.world
           ascii_console_runtime 1 "Ad for {name}" 0%Z Mock.widget_row []
           (Mock.start accented_world) accented_text
           (Exn ValueError
              "'ascii' codec can't encode character: ordinal not in range(128)"));
    reflexivity.
Defined.

(* ================================================================= *)
(** ** Further properties: placeholders next to other characters *)

Section AdjacentFacts.
Context {World : Type} `{RT : Runtime World}.
Import GeminiHandler.


End AdjacentFacts.


